(** * NanoKVM Home Assistant integration: config flow and select entity

    A shallow embedding of [custom_components/nanokvm/config_flow.py] and
    [custom_components/nanokvm/select.py].

    - Python [str] values are [string]s (the bytes of their UTF-8
      encoding); the code only compares and concatenates them
      ([startswith], [endswith], f-strings, [==]).
    - [dict[str, Any]] values are [gmap string string]; the merge [a | b]
      of two dicts is [b ∪ a] (stdpp's union keeps the left operand's
      binding, Python's [|] keeps the right operand's).
    - The coroutines of the config flow run in a state-and-exception monad
      over the flow object's attributes, the configured entries of the host
      framework and the log of the calls made on the device client.  The
      [hass] handle and the HTTP session carry no state of their own here
      and are left out. *)

From stdpp Require Import base gmap strings list.

(** ** Python string primitives *)

Module PyStr.

(** [s.startswith(p)] *)
Fixpoint startswith (s p : string) {struct p} : bool :=
  match p, s with
  | EmptyString, _ => true
  | String _ _, EmptyString => false
  | String a p', String b s' =>
      if decide (a = b) then startswith s' p' else false
  end.

(** [s.endswith(suf)]: some tail of [s] is [suf]. *)
Fixpoint endswith (s suf : string) : bool :=
  if decide (s = suf) then true
  else match s with
       | EmptyString => false
       | String _ s' => endswith s' suf
       end.

(** [s.startswith((p1, p2, ...))]: the tuple form accepts any of the
    prefixes. *)
Definition startswith_any (s : string) (ps : list string) : bool :=
  existsb (startswith s) ps.

End PyStr.

(** ** Exceptions, outcomes and the monad of the coroutines *)

(** Exceptions raised by the device client and its HTTP session.  The
    handlers of the source test [NanoKVMAuthenticationFailure] before
    [(aiohttp.ClientError, NanoKVMError)]; [NanoKVMError] stands for the
    errors of the client library that are not authentication failures.
    [OtherClientException] is any other instance of Python's [Exception];
    [BaseExceptionOnly] is what an [await] raises outside [Exception],
    such as [asyncio.CancelledError]. *)
Inductive client_exn : Type :=
| NanoKVMAuthenticationFailure
| NanoKVMError
| ClientError
| OtherClientException (name : string)
| BaseExceptionOnly (name : string).

(** Exceptions seen by the integration: its own two classes (declared at
    the end of [config_flow.py]), those of the dict and attribute accesses,
    the framework's [AbortFlow], and whatever the client raised. *)
Inductive exn : Type :=
| InvalidAuth
| CannotConnect
| KeyError (key : string)
| AttributeError (attr : string)
| AbortFlow (reason : string)
| ClientRaised (e : client_exn).

(** [isinstance(e, Exception)]: what [except Exception] catches. *)
Definition is_Exception (e : exn) : bool :=
  match e with
  | ClientRaised (BaseExceptionOnly _) => false
  | _ => true
  end.

Inductive Result (A : Type) : Type :=
| Return (a : A)
| Raise (e : exn).

Arguments Return {A} a.
Arguments Raise {A} e.

(** A coroutine over a mutable object of type [St]: attribute writes made
    before an exception is raised stay. *)
Definition M (St A : Type) : Type := St → Result A * St.

#[global] Instance M_ret {St : Type} : MRet (M St) :=
  λ A a st, (Return a, st).

#[global] Instance M_bind {St : Type} : MBind (M St) :=
  λ A B f m st,
    match m st with
    | (Return a, st') => f a st'
    | (Raise e, st') => (Raise e, st')
    end.

Definition raise {St A : Type} (e : exn) : M St A :=
  λ st, (Raise e, st).

Definition get {St : Type} : M St St :=
  λ st, (Return st, st).

Definition modify {St : Type} (f : St → St) : M St unit :=
  λ st, (Return tt, f st).

(** [try: body / except ...: handler / else: orelse].  The handler
    re-raises what no clause matches; the [else] suite runs outside the
    protection of the handlers. *)
Definition try_except_else {St A B : Type}
    (body : M St A) (handler : exn → M St B) (orelse : A → M St B) : M St B :=
  λ st,
    match body st with
    | (Return a, st') => orelse a st'
    | (Raise e, st') => handler e st'
    end.

Definition try_except {St A : Type}
    (body : M St A) (handler : exn → M St A) : M St A :=
  try_except_else body handler mret.

(** A suite either executes a [return] or falls through to the statement
    after it, with the value of the local it assigned. *)
Inductive Suite (R L : Type) : Type :=
| Returned (r : R)
| Fallthrough (l : L).

Arguments Returned {R L} r.
Arguments Fallthrough {R L} l.

Abbreviation dict := (gmap string string).

(** [a | b] on dicts: the bindings of [b] win. *)
Definition dict_or (a b : dict) : dict := b ∪ a.

(** [d[k]] *)
Definition getitem {St : Type} (d : dict) (k : string) : M St string :=
  match d !! k with
  | Some v => mret v
  | None => raise (KeyError k)
  end.

(** [_LOGGER.debug(fmt, arg)]: the argument is evaluated, the record is
    not part of the model. *)
Definition log_debug {St A : Type} (arg : M St A) : M St unit :=
  arg;; mret tt.

(** ** [config_flow.py] *)

Module ConfigFlow.

(** [homeassistant.const] *)
Definition CONF_HOST : string := "host".
Definition CONF_USERNAME : string := "username".
Definition CONF_PASSWORD : string := "password".

Definition normalize_host (host : string) : string :=
  let host :=
    if negb (PyStr.startswith_any host ["http://"; "https://"])
    then "http://" +:+ host
    else host in
  let host :=
    if negb (PyStr.endswith host "/api/")
    then (if PyStr.endswith host "/" then host +:+ "api/" else host +:+ "/api/")
    else host in
  host.

Definition normalize_mdns (mdns : string) : string :=
  let mdns :=
    if negb (PyStr.endswith mdns ".") then mdns +:+ "." else mdns in
  mdns.

(** *** The device client ([nanokvm.client]) *)

Record DeviceInfo := { mdns : string }.

Inductive ClientCall : Type :=
| Authenticate (url username password : string)
| GetInfo (url : string).

(** The network: what a call answers, given the calls made before it.
    [None] and [inr] are normal returns. *)
Record Device := {
  authenticate_rsp : list ClientCall → string → string → string → option client_exn;
  get_info_rsp : list ClientCall → string → client_exn + DeviceInfo;
}.

(** [NanoKVMClient(url, session)] *)
Record NanoKVMClient := { url : string }.

(** *** The flow object and the framework around it *)

Record Required := { key : string; default : option string }.

Inductive FlowResult : Type :=
| Form (step_id : string) (data_schema : option (list Required))
       (errors : dict) (description_placeholders : option dict)
| CreateEntry (title : string) (data : dict)
| NoResult.

(** [data], [unique_id] and [title_placeholders] are attributes of the flow
    ([self.data] is unset until a step assigns it); [entries] holds the
    unique ids of the configured entries of the domain, those the
    framework refuses to configure twice; [calls] is the log of the client
    calls, oldest first. *)
Record FlowState := {
  data : option dict;
  unique_id : option string;
  title_placeholders : option dict;
  entries : gset string;
  calls : list ClientCall;
}.

Definition set_data (d : dict) (st : FlowState) : FlowState :=
  {| data := Some d; unique_id := unique_id st;
     title_placeholders := title_placeholders st;
     entries := entries st; calls := calls st |}.

Definition set_unique_id (u : string) (st : FlowState) : FlowState :=
  {| data := data st; unique_id := Some u;
     title_placeholders := title_placeholders st;
     entries := entries st; calls := calls st |}.

Definition set_title_placeholders (d : dict) (st : FlowState) : FlowState :=
  {| data := data st; unique_id := unique_id st;
     title_placeholders := Some d;
     entries := entries st; calls := calls st |}.

Definition log_call (c : ClientCall) (st : FlowState) : FlowState :=
  {| data := data st; unique_id := unique_id st;
     title_placeholders := title_placeholders st;
     entries := entries st; calls := calls st ++ [c] |}.

(** [self.data] *)
Definition self_data : M FlowState dict :=
  st ← get;
  match data st with
  | Some d => mret d
  | None => raise (AttributeError "data")
  end.

(** The framework's [async_set_unique_id]: records the id on the flow. *)
Definition async_set_unique_id (u : string) : M FlowState unit :=
  modify (set_unique_id u).

(** The framework's [_abort_if_unique_id_configured]: raises [AbortFlow]
    when an entry with the flow's unique id exists. *)
Definition _abort_if_unique_id_configured : M FlowState unit :=
  st ← get;
  match unique_id st with
  | Some u =>
      if decide (u ∈ entries st) then raise (AbortFlow "already_configured")
      else mret tt
  | None => mret tt
  end.

Definition async_create_entry (title : string) (d : dict) : M FlowState FlowResult :=
  mret (CreateEntry title d).

Definition async_show_form (step_id : string) (data_schema : option (list Required))
    (errors : dict) (description_placeholders : option dict) : M FlowState FlowResult :=
  mret (Form step_id data_schema errors description_placeholders).

Section Flow.
(** The default credentials of [const.py] and the device on the network
    are parameters. *)
Variables (DEFAULT_USERNAME DEFAULT_PASSWORD : string).
Variable dev : Device.

(** [await client.authenticate(username, password)] *)
Definition authenticate (client : NanoKVMClient) (username password : string) :
    M FlowState unit :=
  st ← get;
  modify (log_call (Authenticate (url client) username password));;
  match authenticate_rsp dev (calls st) (url client) username password with
  | Some e => raise (ClientRaised e)
  | None => mret tt
  end.

(** [await client.get_info()] *)
Definition get_info (client : NanoKVMClient) : M FlowState DeviceInfo :=
  st ← get;
  modify (log_call (GetInfo (url client)));;
  match get_info_rsp dev (calls st) (url client) with
  | inl e => raise (ClientRaised e)
  | inr info => mret info
  end.

Definition validate_input (d : dict) : M FlowState string :=
  host ← getitem d CONF_HOST;
  let client := {| url := normalize_host host |} in
  device_info ←
    try_except
      (username ← getitem d CONF_USERNAME;
       password ← getitem d CONF_PASSWORD;
       authenticate client username password;;
       get_info client)
      (λ err,
         match err with
         | ClientRaised NanoKVMAuthenticationFailure => raise InvalidAuth
         | ClientRaised ClientError | ClientRaised NanoKVMError =>
             raise CannotConnect
         | _ => raise err
         end);
  mret (normalize_mdns (mdns device_info)).

Definition add_device (mdns : string) (d : dict) : M FlowState FlowResult :=
  async_set_unique_id mdns;;
  _abort_if_unique_id_configured;;
  async_create_entry ("NanoKVM (" +:+ mdns +:+ ")") d.

Definition auth_schema : list Required :=
  [ {| key := CONF_USERNAME; default := Some DEFAULT_USERNAME |};
    {| key := CONF_PASSWORD; default := None |} ].

Definition async_step_auth (user_input : option dict) : M FlowState FlowResult :=
  let errors : dict := ∅ in
  let schema := auth_schema in
  suite ←
    match user_input with
    | Some user_input =>
        self_data ← self_data;
        let d := dict_or self_data user_input in
        try_except_else (validate_input d)
          (λ err,
             match err with
             | CannotConnect =>
                 mret (Fallthrough (<["base" := "cannot_connect"]> errors))
             | InvalidAuth =>
                 mret (Fallthrough (<["base" := "invalid_auth"]> errors))
             | _ =>
                 if is_Exception err
                 then mret (Fallthrough (<["base" := "unknown"]> errors))
                 else raise err
             end)
          (λ mdns, r ← add_device mdns d; mret (Returned r))
    | None => mret (Fallthrough errors)
    end;
  match suite with
  | Returned r => mret r
  | Fallthrough errors => async_show_form "auth" (Some schema) errors None
  end.

Definition async_step_confirm (user_input : option dict) : M FlowState FlowResult :=
  let errors : dict := ∅ in
  suite ←
    match user_input with
    | Some user_input =>
        try_except_else (d ← self_data; validate_input d)
          (λ err,
             match err with
             | CannotConnect =>
                 mret (Fallthrough (<["base" := "cannot_connect"]> errors))
             | InvalidAuth =>
                 log_debug (d ← self_data; getitem d CONF_HOST);;
                 r ← async_step_auth None; mret (Returned r)
             | _ =>
                 if is_Exception err
                 then mret (Fallthrough (<["base" := "unknown"]> errors))
                 else raise err
             end)
          (λ mdns, d ← self_data; r ← add_device mdns d; mret (Returned r))
    | None => mret (Fallthrough errors)
    end;
  match suite with
  | Returned r => mret r
  | Fallthrough errors =>
      d ← self_data;
      name ← getitem d CONF_HOST;
      async_show_form "confirm" None errors (Some {["name" := name]})
  end.

Definition user_schema : list Required :=
  [ {| key := CONF_HOST; default := None |} ].

Definition async_step_user (user_input : option dict) : M FlowState FlowResult :=
  let errors : dict := ∅ in
  suite ←
    match user_input with
    | Some user_input =>
        let d :=
          dict_or {[CONF_USERNAME := DEFAULT_USERNAME;
                    CONF_PASSWORD := DEFAULT_PASSWORD]} user_input in
        try_except_else (validate_input d)
          (λ err,
             match err with
             | CannotConnect =>
                 mret (Fallthrough (<["base" := "cannot_connect"]> errors))
             | InvalidAuth =>
                 log_debug (getitem user_input CONF_HOST);;
                 modify (set_data user_input);;
                 r ← async_step_auth None; mret (Returned r)
             | _ =>
                 if is_Exception err
                 then mret (Fallthrough (<["base" := "unknown"]> errors))
                 else raise err
             end)
          (λ _,
             modify (set_data d);;
             r ← async_step_confirm None; mret (Returned r))
    | None => mret (Fallthrough errors)
    end;
  match suite with
  | Returned r => mret r
  | Fallthrough errors => async_show_form "user" (Some user_schema) errors None
  end.

Record ZeroconfServiceInfo := { hostname : string }.

Definition async_step_zeroconf (discovery_info : ZeroconfServiceInfo) :
    M FlowState FlowResult :=
  async_set_unique_id (normalize_mdns (hostname discovery_info));;
  _abort_if_unique_id_configured;;
  let client := {| url := normalize_host (hostname discovery_info) |} in
  suite ←
    try_except
      (authenticate client DEFAULT_USERNAME DEFAULT_PASSWORD;;
       get_info client;;
       mret (Fallthrough tt))
      (λ err,
         match err with
         | ClientRaised NanoKVMAuthenticationFailure => mret (Fallthrough tt)
         | ClientRaised ClientError | ClientRaised NanoKVMError =>
             mret (Returned NoResult)
         | _ => raise err
         end);
  match suite with
  | Returned r => mret r
  | Fallthrough _ =>
      modify (set_title_placeholders {["name" := hostname discovery_info]});;
      modify (set_data {[CONF_HOST := hostname discovery_info]});;
      d ← self_data;
      async_step_user (Some d)
  end.

End Flow.

End ConfigFlow.

(** ** [select.py] *)

Module Select.

(** [nanokvm.models.MouseJigglerMode] *)
Inductive MouseJigglerMode : Type := ABSOLUTE | RELATIVE.

#[global] Instance MouseJigglerMode_eq_dec : EqDecision MouseJigglerMode.
Proof. solve_decision. Defined.

(** The state the coordinator polls from the device. *)
Record MouseJigglerState := { enabled : bool; mode : MouseJigglerMode }.

(** What the entity asks of the outside, oldest first. *)
Inductive Event : Type :=
| SetMouseJigglerState (enabled : bool) (mode : MouseJigglerMode)
| RequestRefresh.

(** [coordinator.client]: a write either returns or raises, depending on
    what was asked before. *)
Record NanoKVMClient := {
  set_mouse_jiggler_state_rsp :
    list Event → bool → MouseJigglerMode → option client_exn;
}.

(** [NanoKVMDataUpdateCoordinator], as far as the entity uses it. *)
Record Coordinator := {
  client : NanoKVMClient;
  mouse_jiggler_state : option MouseJigglerState;
  events : list Event;
}.

Definition log_event (e : Event) (c : Coordinator) : Coordinator :=
  {| client := client c; mouse_jiggler_state := mouse_jiggler_state c;
     events := events c ++ [e] |}.

(** [await coordinator.client.set_mouse_jiggler_state(enabled, mode)] *)
Definition set_mouse_jiggler_state (enabled : bool) (mode : MouseJigglerMode) :
    M Coordinator unit :=
  coordinator ← get;
  modify (log_event (SetMouseJigglerState enabled mode));;
  match set_mouse_jiggler_state_rsp (client coordinator)
          (events coordinator) enabled mode with
  | Some e => raise (ClientRaised e)
  | None => mret tt
  end.

(** [await coordinator.async_request_refresh()] *)
Definition async_request_refresh : M Coordinator unit :=
  modify (log_event RequestRefresh).

Record NanoKVMSelectEntityDescription := {
  key : string;
  name : string;
  options : list string;
  value_fn : Coordinator → string;
  available_fn : Coordinator → bool;
  select_option_fn : string → M Coordinator unit;
}.

Definition mouse_jiggler_mode : NanoKVMSelectEntityDescription :=
  {| key := "mouse_jiggler_mode";
     name := "Mouse Jiggler Mode";
     options := ["Disable"; "Relative Mode"; "Absolute Mode"];
     value_fn := λ coordinator,
       match mouse_jiggler_state coordinator with
       | None => "Disable"
       | Some state =>
           if negb (enabled state) then "Disable"
           else if decide (mode state = RELATIVE) then "Relative Mode"
           else "Absolute Mode"
       end;
     select_option_fn := λ option,
       set_mouse_jiggler_state
         (negb (bool_decide (option = "Disable")))
         (if decide (option = "Relative Mode") then RELATIVE else ABSOLUTE);
     available_fn := λ coordinator,
       match mouse_jiggler_state coordinator with
       | None => false
       | Some _ => true
       end |}.

Definition SELECTS : list NanoKVMSelectEntityDescription :=
  [mouse_jiggler_mode].

(** [NanoKVMSelect]; [self.coordinator] is the object the coroutines run
    over. *)
Record NanoKVMSelect := { entity_description : NanoKVMSelectEntityDescription }.

Definition async_setup_entry (coordinator : Coordinator) : list NanoKVMSelect :=
  (λ description, {| entity_description := description |})
    <$> filter (λ description, available_fn description coordinator = true) SELECTS.

Definition current_option (self : NanoKVMSelect) (coordinator : Coordinator) : string :=
  value_fn (entity_description self) coordinator.

Definition async_select_option (self : NanoKVMSelect) (option : string) :
    M Coordinator unit :=
  select_option_fn (entity_description self) option;;
  async_request_refresh.

End Select.

Import ConfigFlow.

(** ** Vocabulary of the statements *)

(** The exchange [authenticate(username, password)] then [get_info()] with
    the device at [url], started after the calls of [log]: [get_info] is
    sent only when [authenticate] returned. *)
Definition client_raises (dev : Device) (log : list ClientCall)
    (url username password : string) (e : client_exn) : Prop :=
  authenticate_rsp dev log url username password = Some e
  ∨ (authenticate_rsp dev log url username password = None
     ∧ get_info_rsp dev (log ++ [Authenticate url username password]) url = inl e).

Definition client_returns (dev : Device) (log : list ClientCall)
    (url username password : string) (info : DeviceInfo) : Prop :=
  authenticate_rsp dev log url username password = None
  ∧ get_info_rsp dev (log ++ [Authenticate url username password]) url = inr info.

(** The same exchange as [validate_input] starts it from the dict [d]. *)
Definition probe_raises (dev : Device) (d : dict) (st : FlowState)
    (e : client_exn) : Prop :=
  ∃ h u p,
    d !! CONF_HOST = Some h ∧ d !! CONF_USERNAME = Some u
    ∧ d !! CONF_PASSWORD = Some p
    ∧ client_raises dev (calls st) (normalize_host h) u p e.

Definition probe_returns (dev : Device) (d : dict) (st : FlowState)
    (info : DeviceInfo) : Prop :=
  ∃ h u p,
    d !! CONF_HOST = Some h ∧ d !! CONF_USERNAME = Some u
    ∧ d !! CONF_PASSWORD = Some p
    ∧ client_returns dev (calls st) (normalize_host h) u p info.

(** What [validate_input] raises for an exception of the client. *)
Definition reraised (e : client_exn) : exn :=
  match e with
  | NanoKVMAuthenticationFailure => InvalidAuth
  | ClientError | NanoKVMError => CannotConnect
  | OtherClientException _ | BaseExceptionOnly _ => ClientRaised e
  end.

(** The default credentials as the user step writes them. *)
Definition default_credentials (U P : string) : dict :=
  {[CONF_USERNAME := U; CONF_PASSWORD := P]}.

(** [d.get(k, dflt)] *)
Definition dict_get (d : dict) (k dflt : string) : string :=
  match d !! k with
  | Some v => v
  | None => dflt
  end.

(** The data a flow stores always names the host. *)
Definition data_has_host (st : FlowState) : Prop :=
  ∀ d, data st = Some d → is_Some (d !! CONF_HOST).

(** A device whose answers do not depend on what it was asked before. *)
Definition stateless (dev : Device) : Prop :=
  ∀ log log' url username password,
    authenticate_rsp dev log url username password
    = authenticate_rsp dev log' url username password
    ∧ get_info_rsp dev log url = get_info_rsp dev log' url.

(** ** Concrete devices and states *)

Module Examples.

(** A device that accepts every credential. *)
Definition dev_open : Device :=
  {| authenticate_rsp := λ _ _ _ _, None;
     get_info_rsp := λ _ _, inr {| mdns := "kvm-8f3a.local" |} |}.

(** A device that accepts only the password "secret". *)
Definition dev_locked : Device :=
  {| authenticate_rsp := λ _ _ _ password,
       if decide (password = "secret") then None
       else Some NanoKVMAuthenticationFailure;
     get_info_rsp := λ _ _, inr {| mdns := "kvm-8f3a.local." |} |}.

(** A host that does not answer. *)
Definition dev_down : Device :=
  {| authenticate_rsp := λ _ _ _ _, Some ClientError;
     get_info_rsp := λ _ _, inl ClientError |}.

(** A client that fails with an exception of neither library. *)
Definition dev_broken : Device :=
  {| authenticate_rsp := λ _ _ _ _, Some (OtherClientException "ValueError");
     get_info_rsp := λ _ _, inl (OtherClientException "ValueError") |}.

(** A device whose first call is cancelled by the event loop. *)
Definition dev_cancelled : Device :=
  {| authenticate_rsp := λ _ _ _ _, Some (BaseExceptionOnly "CancelledError");
     get_info_rsp := λ _ _, inl (BaseExceptionOnly "CancelledError") |}.

(** A flow that has just been created, with the entries [configured]. *)
Definition fresh (configured : gset string) : FlowState :=
  {| data := None; unique_id := None; title_placeholders := None;
     entries := configured; calls := [] |}.

Definition host_only : dict := {[CONF_HOST := "kvm.local"]}.

Definition admin_data : dict :=
  {[CONF_HOST := "kvm.local"; CONF_USERNAME := "admin"; CONF_PASSWORD := "admin"]}.

(** A coordinator whose client accepts every write, holding [state]. *)
Definition coordinator (state : option Select.MouseJigglerState) :
    Select.Coordinator :=
  {| Select.client := {| Select.set_mouse_jiggler_state_rsp := λ _ _ _, None |};
     Select.mouse_jiggler_state := state;
     Select.events := [] |}.

End Examples.

(** ** Setting up the select platform *)

Module SelectSetup.

(** [hass.data], with the coordinators of each domain by entry id, and
    the entities handed to [async_add_entities], oldest first. *)
Record Hass := {
  hass_data : gmap string (gmap string Select.Coordinator);
  added : list Select.NanoKVMSelect;
}.

Definition async_add_entities (new : list Select.NanoKVMSelect) : M Hass unit :=
  modify (λ hass, {| hass_data := hass_data hass; added := added hass ++ new |}).

Section Setup.
(** [DOMAIN] of [const.py] is a parameter. *)
Variable DOMAIN : string.

(** [async_setup_entry(hass, entry, async_add_entities)], with
    [entry.entry_id] for the entry. *)
Definition async_setup_entry (entry_id : string) : M Hass unit :=
  hass ← get;
  domain_data ←
    match hass_data hass !! DOMAIN with
    | Some by_entry => mret by_entry
    | None => raise (KeyError DOMAIN)
    end;
  coordinator ←
    match domain_data !! entry_id with
    | Some coordinator => mret coordinator
    | None => raise (KeyError entry_id)
    end;
  async_add_entities (Select.async_setup_entry coordinator).

End Setup.

End SelectSetup.

(** ** Vocabulary of the invariants *)

(** The URL a call is sent to. *)
Definition call_url (c : ClientCall) : string :=
  match c with
  | Authenticate url _ _ => url
  | GetInfo url => url
  end.

(** An API base URL: a scheme in front, "/api/" at the end. *)
Definition api_url (u : string) : Prop :=
  PyStr.startswith_any u ["http://"; "https://"] = true
  ∧ PyStr.endswith u "/api/" = true.

Definition calls_to_api (st : FlowState) : Prop :=
  ∀ c, c ∈ calls st → api_url (call_url c).

(** The flow's unique id, when set, ends with a dot. *)
Definition unique_id_dotted (st : FlowState) : Prop :=
  ∀ u, unique_id st = Some u → PyStr.endswith u "." = true.

(** The three keys of a complete configuration. *)
Definition complete (d : dict) : Prop :=
  is_Some (d !! CONF_HOST) ∧ is_Some (d !! CONF_USERNAME)
  ∧ is_Some (d !! CONF_PASSWORD).

(** The title [add_device] gives an entry. *)
Definition entry_title (mdns : string) : string :=
  "NanoKVM (" +:+ mdns +:+ ")".

(** ** Facts about the string primitives *)

Section PyStrFacts.
Import PyStr.

Lemma append_nil (t : string) : "" +:+ t = t.
Proof. reflexivity. Qed.

Lemma append_cons (a : Ascii.ascii) (s t : string) :
  String a s +:+ t = String a (s +:+ t).
Proof. reflexivity. Qed.

Lemma append_assoc (a b c : string) : (a +:+ b) +:+ c = a +:+ (b +:+ c).
Proof.
  induction a as [|x a IH]; [done |].
  by rewrite !append_cons, IH.
Qed.

Lemma startswith_spec (s p : string) :
  startswith s p = true ↔ ∃ r, s = p +:+ r.
Proof.
  revert s; induction p as [|a p IH]; intros s; simpl.
  - split; [intros _; by exists s | done].
  - destruct s as [|b s].
    + split; [done | intros [r Hr]; discriminate].
    + case_decide as Hab.
      * subst b. rewrite IH. split.
        -- intros [r ->]. by exists r.
        -- intros [r Hr]. rewrite append_cons in Hr.
           injection Hr as ->. by exists r.
      * split; [done |]. intros [r Hr]. rewrite append_cons in Hr.
        injection Hr as -> _. done.
Qed.

Lemma endswith_spec (s suf : string) :
  endswith s suf = true ↔ ∃ q, s = q +:+ suf.
Proof.
  induction s as [|b s IH]; simpl.
  - case_decide as He.
    + split; [intros _; by exists "" | done].
    + split; [done |]. intros [q Hq].
      destruct q; [done | discriminate].
  - case_decide as He.
    + split; [intros _; by exists "" | done].
    + rewrite IH. split.
      * intros [q ->]. by exists (String b q).
      * intros [q Hq]. destruct q as [|c q]; [done |].
        rewrite append_cons in Hq. injection Hq as -> ->. by exists q.
Qed.

Lemma startswith_append (s p t : string) :
  startswith s p = true → startswith (s +:+ t) p = true.
Proof.
  rewrite !startswith_spec. intros [r ->]. exists (r +:+ t).
  apply append_assoc.
Qed.

Lemma startswith_any_append (s t : string) (ps : list string) :
  startswith_any s ps = true → startswith_any (s +:+ t) ps = true.
Proof.
  unfold startswith_any. rewrite !existsb_exists.
  intros (p & Hp & Hs). exists p. split; [done |].
  by apply startswith_append.
Qed.

Lemma endswith_append (s suf : string) : endswith (s +:+ suf) suf = true.
Proof. apply endswith_spec. by exists s. Qed.

Lemma endswith_slash_api (s : string) :
  endswith s "/" = true → endswith (s +:+ "api/") "/api/" = true.
Proof.
  rewrite !endswith_spec. intros [q ->]. exists q.
  by rewrite append_assoc.
Qed.

End PyStrFacts.

(** ** Host normalisation *)

Lemma normalize_host_scheme (h : string) :
  PyStr.startswith_any (normalize_host h) ["http://"; "https://"] = true.
Proof.
  unfold normalize_host.
  set (h1 := if negb (PyStr.startswith_any h _) then _ else _).
  assert (PyStr.startswith_any h1 ["http://"; "https://"] = true) as H1.
  { subst h1. destruct (PyStr.startswith_any h _) eqn:Hs; simpl; [done |].
    unfold PyStr.startswith_any. simpl.
    replace (PyStr.startswith ("http://" +:+ h) "http://") with true; [done |].
    symmetry. apply startswith_spec. by exists h. }
  destruct (PyStr.endswith h1 "/api/"); cbn [negb]; [done |].
  destruct (PyStr.endswith h1 "/"); by apply startswith_any_append.
Qed.

Lemma normalize_host_api (h : string) :
  PyStr.endswith (normalize_host h) "/api/" = true.
Proof.
  unfold normalize_host.
  set (h1 := if negb (PyStr.startswith_any h _) then _ else _).
  destruct (PyStr.endswith h1 "/api/") eqn:Ha; cbn [negb]; [done |].
  destruct (PyStr.endswith h1 "/") eqn:Hsl.
  - by apply endswith_slash_api.
  - apply endswith_append.
Qed.

Lemma normalize_host_fixed (h : string) :
  PyStr.startswith_any h ["http://"; "https://"] = true →
  PyStr.endswith h "/api/" = true →
  normalize_host h = h.
Proof.
  intros Hs Ha. unfold normalize_host.
  rewrite Hs. cbn [negb]. by rewrite Ha.
Qed.

Example normalize_host_bare :
  normalize_host "kvm.local" = "http://kvm.local/api/".
Proof. reflexivity. Qed.

Example normalize_host_slash :
  normalize_host "https://kvm.local/" = "https://kvm.local/api/".
Proof. reflexivity. Qed.

Example normalize_host_done :
  normalize_host "http://kvm.local/api/" = "http://kvm.local/api/".
Proof. reflexivity. Qed.

Example normalize_host_upper :
  normalize_host "HTTP://kvm.local" = "http://HTTP://kvm.local/api/".
Proof. reflexivity. Qed.

Example normalize_mdns_bare : normalize_mdns "kvm.local" = "kvm.local.".
Proof. reflexivity. Qed.

Example normalize_mdns_empty : normalize_mdns "" = ".".
Proof. reflexivity. Qed.

(** C3: host normalisation is idempotent: normalising an already
    normalised host changes nothing, for every string. *)
Theorem normalize_host_idempotent (h : string) :
  normalize_host (normalize_host h) = normalize_host h.
Proof.
  apply normalize_host_fixed;
    [apply normalize_host_scheme | apply normalize_host_api].
Qed.

(** C4: for every string, the normalised host ends with "/api/" and
    starts with "http://" or "https://"; stated both with the Python
    tests and as decompositions of the result. *)
Theorem normalize_host_shape (h : string) :
  PyStr.endswith (normalize_host h) "/api/" = true
  ∧ (PyStr.startswith (normalize_host h) "http://" = true
     ∨ PyStr.startswith (normalize_host h) "https://" = true)
  ∧ (∃ q, normalize_host h = q +:+ "/api/")
  ∧ ((∃ r, normalize_host h = "http://" +:+ r)
     ∨ (∃ r, normalize_host h = "https://" +:+ r)).
Proof.
  pose proof (normalize_host_api h) as Ha.
  pose proof (normalize_host_scheme h) as Hs.
  unfold PyStr.startswith_any in Hs. simpl in Hs.
  rewrite orb_false_r in Hs. apply orb_true_iff in Hs.
  split; [done |]. split; [done |].
  split; [by apply endswith_spec |].
  destruct Hs as [Hs | Hs]; [left | right]; by apply startswith_spec.
Qed.

(** C8: for every string, the normalised mDNS name ends with a dot. *)
Theorem normalize_mdns_trailing_dot (s : string) :
  PyStr.endswith (normalize_mdns s) "." = true
  ∧ ∃ q, normalize_mdns s = q +:+ ".".
Proof.
  assert (PyStr.endswith (normalize_mdns s) "." = true) as H.
  { unfold normalize_mdns.
    destruct (PyStr.endswith s ".") eqn:Hd; cbn [negb]; [done |].
    apply endswith_append. }
  split; [done | by apply endswith_spec].
Qed.

(** ** The coroutines, case by case *)

Ltac destruct_exn e :=
  destruct e as [| | ? | ? | ? | [| | | ? | ?]]; cbn [is_Exception].

Lemma validate_input_unfold (dev : Device) (d : dict) (st : FlowState) :
  validate_input dev d st =
  match d !! CONF_HOST with
  | None => (Raise (KeyError CONF_HOST), st)
  | Some h =>
      match d !! CONF_USERNAME with
      | None => (Raise (KeyError CONF_USERNAME), st)
      | Some u =>
          match d !! CONF_PASSWORD with
          | None => (Raise (KeyError CONF_PASSWORD), st)
          | Some p =>
              let url := normalize_host h in
              let st1 := log_call (Authenticate url u p) st in
              match authenticate_rsp dev (calls st) url u p with
              | Some e => (Raise (reraised e), st1)
              | None =>
                  let st2 := log_call (GetInfo url) st1 in
                  match get_info_rsp dev (calls st1) url with
                  | inl e => (Raise (reraised e), st2)
                  | inr info => (Return (normalize_mdns (mdns info)), st2)
                  end
              end
          end
      end
  end.
Proof.
  unfold validate_input, try_except, try_except_else, getitem, authenticate,
    get_info, mbind, M_bind, mret, M_ret, raise, get, modify.
  destruct (d !! CONF_HOST) as [h|]; [| reflexivity].
  destruct (d !! CONF_USERNAME) as [u|]; [| reflexivity].
  destruct (d !! CONF_PASSWORD) as [p|]; [| reflexivity].
  cbv zeta. cbn [url].
  destruct (authenticate_rsp dev (calls st) (normalize_host h) u p) as [e|].
  - by destruct e.
  - cbn [url calls log_call].
    destruct (get_info_rsp dev _ (normalize_host h)) as [e|info];
      [by destruct e | reflexivity].
Qed.

Lemma validate_input_frame (dev : Device) (d : dict) (st : FlowState) :
  data (validate_input dev d st).2 = data st
  ∧ unique_id (validate_input dev d st).2 = unique_id st
  ∧ title_placeholders (validate_input dev d st).2 = title_placeholders st
  ∧ entries (validate_input dev d st).2 = entries st
  ∧ ∃ new, calls (validate_input dev d st).2 = calls st ++ new.
Proof.
  rewrite validate_input_unfold.
  destruct (d !! CONF_HOST) as [h|]; [| by repeat split; exists []; rewrite app_nil_r].
  destruct (d !! CONF_USERNAME) as [u|]; [| by repeat split; exists []; rewrite app_nil_r].
  destruct (d !! CONF_PASSWORD) as [p|]; [| by repeat split; exists []; rewrite app_nil_r].
  cbv zeta.
  destruct (authenticate_rsp dev _ _ u p) as [e|].
  - repeat split. by eexists.
  - destruct (get_info_rsp dev _ _) as [e|info]; repeat split;
      cbn [snd calls log_call]; rewrite <- app_assoc; by eexists.
Qed.

Lemma add_device_unfold (m : string) (d : dict) (st : FlowState) :
  add_device m d st =
  if decide (m ∈ entries st)
  then (Raise (AbortFlow "already_configured"), set_unique_id m st)
  else (Return (CreateEntry ("NanoKVM (" +:+ m +:+ ")") d), set_unique_id m st).
Proof.
  unfold add_device, async_set_unique_id, _abort_if_unique_id_configured,
    async_create_entry, mbind, M_bind, mret, M_ret, raise, get, modify.
  cbn [unique_id entries set_unique_id].
  by destruct (decide (m ∈ entries st)).
Qed.

Lemma async_step_auth_None (U : string) (dev : Device) (st : FlowState) :
  async_step_auth U dev None st =
  (Return (Form "auth" (Some (auth_schema U)) ∅ None), st).
Proof. reflexivity. Qed.

Lemma async_step_confirm_None (U : string) (dev : Device) (st : FlowState) :
  async_step_confirm U dev None st =
  match data st with
  | None => (Raise (AttributeError "data"), st)
  | Some d =>
      match d !! CONF_HOST with
      | None => (Raise (KeyError CONF_HOST), st)
      | Some h => (Return (Form "confirm" None ∅ (Some {["name" := h]})), st)
      end
  end.
Proof.
  unfold async_step_confirm, self_data, getitem, async_show_form,
    mbind, M_bind, mret, M_ret, raise, get.
  destruct (data st) as [d|]; [| reflexivity].
  by destruct (d !! CONF_HOST).
Qed.

Lemma async_step_auth_Some (U : string) (dev : Device) (ui : dict) (st : FlowState) :
  async_step_auth U dev (Some ui) st =
  match data st with
  | None => (Raise (AttributeError "data"), st)
  | Some sd =>
      let d := dict_or sd ui in
      let form key st' :=
        (Return (Form "auth" (Some (auth_schema U)) {["base" := key]} None), st') in
      match validate_input dev d st with
      | (Return m, st') => add_device m d st'
      | (Raise CannotConnect, st') => form "cannot_connect" st'
      | (Raise InvalidAuth, st') => form "invalid_auth" st'
      | (Raise e, st') =>
          if is_Exception e then form "unknown" st' else (Raise e, st')
      end
  end.
Proof.
  unfold async_step_auth, try_except_else, self_data, async_show_form,
    mbind, M_bind, mret, M_ret, raise, get.
  destruct (data st) as [sd|]; [| reflexivity].
  cbv zeta. destruct (validate_input dev (dict_or sd ui) st) as [[m|e] st'].
  - by destruct (add_device m (dict_or sd ui) st') as [[r|e] st''].
  - rewrite insert_empty. by destruct_exn e.
Qed.

Lemma async_step_confirm_Some (U : string) (dev : Device) (ui : dict) (st : FlowState) :
  async_step_confirm U dev (Some ui) st =
  match data st with
  | None => (Raise (AttributeError "data"), st)
  | Some d =>
      let form key st' :=
        match d !! CONF_HOST with
        | None => (Raise (KeyError CONF_HOST), st')
        | Some h =>
            (Return (Form "confirm" None {["base" := key]} (Some {["name" := h]})), st')
        end in
      match validate_input dev d st with
      | (Return m, st') => add_device m d st'
      | (Raise CannotConnect, st') => form "cannot_connect" st'
      | (Raise InvalidAuth, st') =>
          match d !! CONF_HOST with
          | None => (Raise (KeyError CONF_HOST), st')
          | Some _ => async_step_auth U dev None st'
          end
      | (Raise e, st') =>
          if is_Exception e then form "unknown" st' else (Raise e, st')
      end
  end.
Proof.
  unfold async_step_confirm, try_except_else, log_debug, self_data, getitem,
    async_show_form, mbind, M_bind, mret, M_ret, raise, get.
  destruct (data st) as [d|] eqn:Hd;
    [| cbn [is_Exception]; cbv beta iota; by rewrite Hd].
  pose proof (validate_input_frame dev d st) as (Hf & _).
  cbv zeta. destruct (validate_input dev d st) as [[m|e] st'];
    cbn [snd] in Hf.
  - rewrite Hf, Hd. by destruct (add_device m d st') as [[r|e] st''].
  - rewrite !insert_empty.
    destruct_exn e; rewrite ?Hf, ?Hd; try by destruct (d !! CONF_HOST).
Qed.

Lemma async_step_user_None (U P : string) (dev : Device) (st : FlowState) :
  async_step_user U P dev None st =
  (Return (Form "user" (Some user_schema) ∅ None), st).
Proof. reflexivity. Qed.

Lemma async_step_user_Some (U P : string) (dev : Device) (ui : dict) (st : FlowState) :
  async_step_user U P dev (Some ui) st =
  let d := dict_or (default_credentials U P) ui in
  let form key st' :=
    (Return (Form "user" (Some user_schema) {["base" := key]} None), st') in
  match validate_input dev d st with
  | (Return _, st') => async_step_confirm U dev None (set_data d st')
  | (Raise CannotConnect, st') => form "cannot_connect" st'
  | (Raise InvalidAuth, st') =>
      match ui !! CONF_HOST with
      | None => (Raise (KeyError CONF_HOST), st')
      | Some _ => async_step_auth U dev None (set_data ui st')
      end
  | (Raise e, st') =>
      if is_Exception e then form "unknown" st' else (Raise e, st')
  end.
Proof.
  unfold async_step_user, try_except_else, log_debug, getitem,
    async_show_form, default_credentials, mbind, M_bind, mret, M_ret, raise,
    get, modify.
  cbv zeta.
  destruct (validate_input dev _ st) as [[m|e] st'].
  - by destruct (async_step_confirm U dev None (set_data _ st')) as [[r|e] st''].
  - rewrite !insert_empty.
    destruct_exn e; try reflexivity.
    by destruct (ui !! CONF_HOST).
Qed.

Lemma async_step_zeroconf_unfold (U P : string) (dev : Device)
    (info : ZeroconfServiceInfo) (st : FlowState) :
  async_step_zeroconf U P dev info st =
  let url := normalize_host (hostname info) in
  let st1 := set_unique_id (normalize_mdns (hostname info)) st in
  let handoff s :=
    async_step_user U P dev (Some {[CONF_HOST := hostname info]})
      (set_data {[CONF_HOST := hostname info]}
         (set_title_placeholders {["name" := hostname info]} s)) in
  let handle e s :=
    match e with
    | NanoKVMAuthenticationFailure => handoff s
    | ClientError | NanoKVMError => (Return NoResult, s)
    | OtherClientException _ | BaseExceptionOnly _ => (Raise (ClientRaised e), s)
    end in
  if decide (normalize_mdns (hostname info) ∈ entries st)
  then (Raise (AbortFlow "already_configured"), st1)
  else
    let st2 := log_call (Authenticate url U P) st1 in
    match authenticate_rsp dev (calls st) url U P with
    | Some e => handle e st2
    | None =>
        let st3 := log_call (GetInfo url) st2 in
        match get_info_rsp dev (calls st2) url with
        | inl e => handle e st3
        | inr _ => handoff st3
        end
    end.
Proof.
  unfold async_step_zeroconf, async_set_unique_id,
    _abort_if_unique_id_configured, try_except, try_except_else, self_data,
    authenticate, get_info, mbind, M_bind, mret, M_ret, raise, get, modify.
  cbv zeta.
  change (unique_id (set_unique_id ?u ?s)) with (Some u).
  change (entries (set_unique_id ?u ?s)) with (entries s).
  change (calls (set_unique_id ?u ?s)) with (calls s).
  change (url {| url := ?x |}) with x.
  do 2 case_decide; try done.
  change (calls (log_call ?c ?s)) with (calls s ++ [c]).
  change (calls (set_unique_id ?u ?s)) with (calls s).
  destruct (authenticate_rsp dev (calls st) _ U P) as [e|].
  - by destruct e.
  - destruct (get_info_rsp dev _ _) as [e|i]; [by destruct e | reflexivity].
Qed.

(** ** Dict merge *)

Lemma dict_or_lookup (a b : dict) (k : string) :
  dict_or a b !! k = match b !! k with Some v => Some v | None => a !! k end.
Proof.
  unfold dict_or. rewrite lookup_union.
  by destruct (b !! k), (a !! k).
Qed.

Lemma default_credentials_host (U P : string) (ui : dict) :
  dict_or (default_credentials U P) ui !! CONF_HOST = ui !! CONF_HOST.
Proof.
  rewrite dict_or_lookup. destruct (ui !! CONF_HOST); [done |].
  unfold default_credentials. by simplify_map_eq.
Qed.

(** ** What [validate_input] returns or raises *)

Ltac probe_cases dev d :=
  rewrite validate_input_unfold;
  destruct (d !! CONF_HOST) as [?h|] eqn:?;
  [ destruct (d !! CONF_USERNAME) as [?u|] eqn:?;
    [ destruct (d !! CONF_PASSWORD) as [?p|] eqn:?;
      [ cbv zeta; change (calls (log_call ?c ?s)) with (calls s ++ [c]);
        destruct (authenticate_rsp dev _ _ _ _) as [[]|] eqn:?;
        [ .. | destruct (get_info_rsp dev _ _) as [[]|] eqn:? ]
      | ]
    | ]
  | ];
  cbn [fst snd reraised].

Ltac probe_inv :=
  repeat match goal with
    | H : probe_raises _ _ _ _ |- _ =>
        destruct H as (?&?&?&?&?&?&[?|[? ?]])
    | H : probe_returns _ _ _ _ |- _ =>
        destruct H as (?&?&?&?&?&?&?&?)
    | H : _ ∨ _ |- _ => destruct H
    | H : ∃ _, _ |- _ => destruct H
    | H : _ ∧ _ |- _ => destruct H
    end;
  simplify_eq.

Ltac probe_intro :=
  do 3 eexists; split_and!; [eassumption .. |].

Lemma validate_input_InvalidAuth (dev : Device) (d : dict) (st : FlowState) :
  (validate_input dev d st).1 = Raise InvalidAuth
  ↔ probe_raises dev d st NanoKVMAuthenticationFailure.
Proof.
  probe_cases dev d; (split; [intros ?; simplify_eq | intros ?; probe_inv; congruence]).
  - probe_intro. by left.
  - probe_intro. by right.
Qed.

Lemma validate_input_CannotConnect (dev : Device) (d : dict) (st : FlowState) :
  (validate_input dev d st).1 = Raise CannotConnect
  ↔ probe_raises dev d st ClientError ∨ probe_raises dev d st NanoKVMError.
Proof.
  probe_cases dev d; (split; [intros ?; simplify_eq | intros ?; probe_inv; congruence]).
  - right. probe_intro. by left.
  - left. probe_intro. by left.
  - right. probe_intro. by right.
  - left. probe_intro. by right.
Qed.

Lemma validate_input_Return (dev : Device) (d : dict) (st : FlowState) (m : string) :
  (validate_input dev d st).1 = Return m
  ↔ ∃ info, probe_returns dev d st info ∧ m = normalize_mdns (mdns info).
Proof.
  probe_cases dev d; (split; [intros ?; simplify_eq | intros ?; probe_inv; congruence]).
  eexists. split; [| done]. probe_intro. by split.
Qed.

Lemma validate_input_other (dev : Device) (d : dict) (st : FlowState) (name : string) :
  probe_raises dev d st (OtherClientException name) →
  (validate_input dev d st).1 = Raise (ClientRaised (OtherClientException name)).
Proof. probe_cases dev d; intros ?; probe_inv; congruence. Qed.

Lemma validate_input_base_exception (dev : Device) (d : dict) (st : FlowState)
    (name : string) :
  probe_raises dev d st (BaseExceptionOnly name) →
  (validate_input dev d st).1 = Raise (ClientRaised (BaseExceptionOnly name)).
Proof. probe_cases dev d; intros ?; probe_inv; congruence. Qed.

(** ** The user step *)

(** C1: the user step with a non-empty input validates the input merged
    over the default credentials.  When the validation succeeds the step
    returns what the confirm step returns; when it raises [InvalidAuth]
    the step returns what the auth step returns; when it raises
    [CannotConnect] the step shows the user form again with
    errors["base"] = "cannot_connect", and enters no other step: the
    flow's data is left as it was. *)
Theorem async_step_user_outcomes (U P : string) (dev : Device)
    (ui : dict) (st : FlowState) :
  let d := dict_or (default_credentials U P) ui in
  let r := (validate_input dev d st).1 in
  let st' := (validate_input dev d st).2 in
  ((∃ m, r = Return m) →
     async_step_user U P dev (Some ui) st
     = async_step_confirm U dev None (set_data d st'))
  ∧ (r = Raise InvalidAuth →
     async_step_user U P dev (Some ui) st
     = async_step_auth U dev None (set_data ui st'))
  ∧ (r = Raise CannotConnect →
     async_step_user U P dev (Some ui) st
     = (Return (Form "user" (Some user_schema) {["base" := "cannot_connect"]} None),
        st')
     ∧ data st' = data st).
Proof.
  cbv zeta. rewrite async_step_user_Some. cbv zeta.
  pose proof (validate_input_frame dev (dict_or (default_credentials U P) ui) st)
    as (Hdata & _).
  pose proof (validate_input_InvalidAuth dev (dict_or (default_credentials U P) ui) st)
    as [Hauth _].
  destruct (validate_input dev (dict_or (default_credentials U P) ui) st)
    as [[m|e] st'] eqn:Hv; cbn [fst snd] in *.
  - split_and!; [done | done | done].
  - split_and!.
    + by intros [m ?].
    + intros [= ->]. destruct (Hauth eq_refl) as (h & _ & _ & Hh & _).
      rewrite default_credentials_host in Hh. by rewrite Hh.
    + by intros [= ->].
Qed.

(** C1 at concrete inputs: a device that accepts the default credentials,
    one that refuses them, and a host that does not answer. *)
Lemma async_step_user_outcomes_witness :
  (async_step_user "admin" "admin" Examples.dev_open
     (Some Examples.host_only) (Examples.fresh ∅)).1
  = Return (Form "confirm" None ∅ (Some {["name" := "kvm.local"]}))
  ∧ (async_step_user "admin" "admin" Examples.dev_locked
       (Some Examples.host_only) (Examples.fresh ∅)).1
    = Return (Form "auth" (Some (auth_schema "admin")) ∅ None)
  ∧ (async_step_user "admin" "admin" Examples.dev_down
       (Some Examples.host_only) (Examples.fresh ∅)).1
    = Return (Form "user" (Some user_schema) {["base" := "cannot_connect"]} None).
Proof.
  split_and!.
  - destruct (async_step_user_outcomes "admin" "admin" Examples.dev_open
                Examples.host_only (Examples.fresh ∅)) as (H & _ & _).
    rewrite H; [reflexivity |]. eexists. vm_compute. reflexivity.
  - destruct (async_step_user_outcomes "admin" "admin" Examples.dev_locked
                Examples.host_only (Examples.fresh ∅)) as (_ & H & _).
    rewrite H; [reflexivity |]. vm_compute. reflexivity.
  - destruct (async_step_user_outcomes "admin" "admin" Examples.dev_down
                Examples.host_only (Examples.fresh ∅)) as (_ & _ & H).
    destruct H as [H _]; [vm_compute; reflexivity |].
    rewrite H. reflexivity.
Defined.

(** ** The stored data names the host *)

Lemma add_device_data (m : string) (d : dict) (st : FlowState) :
  data (add_device m d st).2 = data st.
Proof. rewrite add_device_unfold. by case_decide. Qed.

Lemma async_step_auth_data (U : string) (dev : Device)
    (user_input : option dict) (st : FlowState) :
  data (async_step_auth U dev user_input st).2 = data st.
Proof.
  destruct user_input as [ui|]; [| done].
  rewrite async_step_auth_Some.
  destruct (data st) as [sd|] eqn:Hd; [| done]. cbv zeta.
  pose proof (validate_input_frame dev (dict_or sd ui) st) as (Hf & _).
  destruct (validate_input dev _ st) as [[m|e] st']; cbn [snd] in Hf.
  - rewrite add_device_data. congruence.
  - destruct_exn e; cbn [snd]; congruence.
Qed.

Lemma async_step_confirm_data (U : string) (dev : Device)
    (user_input : option dict) (st : FlowState) :
  data (async_step_confirm U dev user_input st).2 = data st.
Proof.
  destruct user_input as [ui|].
  - rewrite async_step_confirm_Some.
    destruct (data st) as [d|] eqn:Hd; [| done]. cbv zeta.
    pose proof (validate_input_frame dev d st) as (Hf & _).
    destruct (validate_input dev _ st) as [[m|e] st']; cbn [snd] in Hf.
    + rewrite add_device_data. congruence.
    + destruct_exn e; destruct (d !! CONF_HOST); cbn [snd];
        rewrite ?async_step_auth_data; congruence.
  - rewrite async_step_confirm_None.
    destruct (data st) as [d|] eqn:Hd; [| done].
    by destruct (d !! CONF_HOST).
Qed.

Lemma async_step_user_data_has_host (U P : string) (dev : Device)
    (user_input : option dict) (st : FlowState) :
  data_has_host st →
  data_has_host (async_step_user U P dev user_input st).2.
Proof.
  intros Hinv. destruct user_input as [ui|]; [| done].
  rewrite async_step_user_Some. cbv zeta.
  pose proof (validate_input_frame dev (dict_or (default_credentials U P) ui) st)
    as (Hf & _).
  pose proof (validate_input_Return dev (dict_or (default_credentials U P) ui) st)
    as Hret.
  destruct (validate_input dev _ st) as [[m|e] st']; cbn [fst snd] in *.
  - intros d. rewrite async_step_confirm_data. intros [= <-].
    destruct (Hret m) as [(i & (h & ? & ? & Hh & _) & _) _]; [done |].
    by rewrite Hh.
  - assert (data_has_host st') as Hinv' by (intros d; rewrite Hf; apply Hinv).
    destruct_exn e; try done.
    destruct (ui !! CONF_HOST) as [h|] eqn:Hh; [| done].
    intros d. rewrite async_step_auth_data. intros [= <-]. by rewrite Hh.
Qed.

Lemma async_step_zeroconf_data_has_host (U P : string) (dev : Device)
    (info : ZeroconfServiceInfo) (st : FlowState) :
  data_has_host st →
  data_has_host (async_step_zeroconf U P dev info st).2.
Proof.
  intros Hinv. rewrite async_step_zeroconf_unfold. cbv zeta.
  assert (∀ s, data_has_host
                 (async_step_user U P dev (Some {[CONF_HOST := hostname info]})
                    (set_data {[CONF_HOST := hostname info]}
                       (set_title_placeholders {["name" := hostname info]} s))).2)
    as Hhand.
  { intros s. apply async_step_user_data_has_host.
    intros d [= <-]. by simplify_map_eq. }
  case_decide; [done |].
  destruct (authenticate_rsp dev _ _ U P) as [e|].
  - by destruct e.
  - destruct (get_info_rsp dev _ _) as [e|i]; [by destruct e | done].
Qed.

(** Every step keeps the host in the stored data; a flow that has just
    been created stores nothing. *)
Lemma steps_preserve_data_has_host (U P : string) (dev : Device) (st : FlowState) :
  data_has_host st →
  (∀ ui, data_has_host (async_step_user U P dev ui st).2)
  ∧ (∀ ui, data_has_host (async_step_confirm U dev ui st).2)
  ∧ (∀ ui, data_has_host (async_step_auth U dev ui st).2)
  ∧ (∀ info, data_has_host (async_step_zeroconf U P dev info st).2).
Proof.
  intros Hinv. split_and!.
  - intros ui. by apply async_step_user_data_has_host.
  - intros ui d. rewrite async_step_confirm_data. apply Hinv.
  - intros ui d. rewrite async_step_auth_data. apply Hinv.
  - intros info. by apply async_step_zeroconf_data_has_host.
Qed.

Lemma fresh_data_has_host (configured : gset string) :
  data_has_host (Examples.fresh configured).
Proof. by intros d. Qed.

(** ** Error mapping of [validate_input] *)

Lemma add_device_unique_id (m : string) (d : dict) (s : FlowState) :
  unique_id (add_device m d s).2 = Some m
  ∧ (m ∉ entries s →
     (add_device m d s).1 = Return (CreateEntry ("NanoKVM (" +:+ m +:+ ")") d)).
Proof.
  rewrite add_device_unfold.
  destruct (decide (m ∈ entries s)); split; done.
Qed.

(** C2, amended: [validate_input] raises [InvalidAuth] exactly when the client's
    [authenticate] or [get_info] raises [NanoKVMAuthenticationFailure], and
    [CannotConnect] exactly when one of them raises [aiohttp.ClientError]
    or [NanoKVMError]; it returns exactly when both calls return, and the
    value is the normalised mDNS name of the device.  The confirm and auth
    steps hand that value to [add_device], which makes it the flow's
    unique id and creates the entry under it.  Any other exception of the
    client leaves [validate_input] unchanged.  When it is an instance of
    [Exception], every step that called [validate_input] then shows its
    form with errors["base"] = "unknown" (the confirm form names the host
    stored in the flow's data); when it is not, as
    [asyncio.CancelledError], [except Exception] does not catch it and it
    leaves the step as well, with no form. *)
Theorem validate_input_error_mapping (U P : string) (dev : Device)
    (d : dict) (st : FlowState) :
  let r := (validate_input dev d st).1 in
  let st' := (validate_input dev d st).2 in
  (r = Raise InvalidAuth ↔ probe_raises dev d st NanoKVMAuthenticationFailure)
  ∧ (r = Raise CannotConnect
     ↔ probe_raises dev d st ClientError ∨ probe_raises dev d st NanoKVMError)
  ∧ (∀ m, r = Return m
          ↔ ∃ info, probe_returns dev d st info ∧ m = normalize_mdns (mdns info))
  ∧ (∀ m, r = Return m →
       (∀ ui, data st = Some d →
          async_step_confirm U dev (Some ui) st = add_device m d st')
       ∧ (∀ ui sd, data st = Some sd → d = dict_or sd ui →
          async_step_auth U dev (Some ui) st = add_device m d st')
       ∧ ∀ s, unique_id (add_device m d s).2 = Some m
              ∧ (m ∉ entries s →
                 (add_device m d s).1
                 = Return (CreateEntry ("NanoKVM (" +:+ m +:+ ")") d)))
  ∧ (∀ name, probe_raises dev d st (OtherClientException name) →
       r = Raise (ClientRaised (OtherClientException name)))
  ∧ (∀ name, probe_raises dev d st (BaseExceptionOnly name) →
       r = Raise (ClientRaised (BaseExceptionOnly name)))
  ∧ (∀ e, r = Raise e → is_Exception e = false →
       (∀ ui, d = dict_or (default_credentials U P) ui →
          async_step_user U P dev (Some ui) st = (Raise e, st'))
       ∧ (∀ ui, data st = Some d →
          async_step_confirm U dev (Some ui) st = (Raise e, st'))
       ∧ (∀ ui sd, data st = Some sd → d = dict_or sd ui →
          async_step_auth U dev (Some ui) st = (Raise e, st')))
  ∧ (∀ e, r = Raise e → e ≠ InvalidAuth → e ≠ CannotConnect →
       is_Exception e = true →
       (∀ ui, d = dict_or (default_credentials U P) ui →
          async_step_user U P dev (Some ui) st
          = (Return (Form "user" (Some user_schema) {["base" := "unknown"]} None),
             st'))
       ∧ (∀ ui h, data st = Some d → d !! CONF_HOST = Some h →
          async_step_confirm U dev (Some ui) st
          = (Return (Form "confirm" None {["base" := "unknown"]}
                       (Some {["name" := h]})), st'))
       ∧ (∀ ui sd, data st = Some sd → d = dict_or sd ui →
          async_step_auth U dev (Some ui) st
          = (Return (Form "auth" (Some (auth_schema U)) {["base" := "unknown"]}
                       None), st'))).
Proof.
  cbv zeta. split_and!.
  - apply validate_input_InvalidAuth.
  - apply validate_input_CannotConnect.
  - apply validate_input_Return.
  - intros m Hr. split_and!.
    + intros ui Hd. rewrite async_step_confirm_Some, Hd. cbv zeta.
      destruct (validate_input dev d st) as [r st']. cbn [fst snd] in *.
      by subst r.
    + intros ui sd Hd ->. rewrite async_step_auth_Some, Hd. cbv zeta.
      destruct (validate_input dev _ st) as [r st']. cbn [fst snd] in *.
      by subst r.
    + apply add_device_unique_id.
  - apply validate_input_other.
  - apply validate_input_base_exception.
  - intros e Hr Hex. split_and!.
    + intros ui ->. rewrite async_step_user_Some. cbv zeta.
      destruct (validate_input dev _ st) as [r st']. cbn [fst snd] in *.
      subst r. by destruct_exn e.
    + intros ui Hd. rewrite async_step_confirm_Some, Hd. cbv zeta.
      destruct (validate_input dev d st) as [r st']. cbn [fst snd] in *.
      subst r. by destruct_exn e.
    + intros ui sd Hd ->. rewrite async_step_auth_Some, Hd. cbv zeta.
      destruct (validate_input dev _ st) as [r st']. cbn [fst snd] in *.
      subst r. by destruct_exn e.
  - intros e Hr Hia Hcc Hex. split_and!.
    + intros ui ->. rewrite async_step_user_Some. cbv zeta.
      destruct (validate_input dev _ st) as [r st']. cbn [fst snd] in *.
      subst r. by destruct_exn e.
    + intros ui h Hd Hh. rewrite async_step_confirm_Some, Hd. cbv zeta.
      destruct (validate_input dev d st) as [r st']. cbn [fst snd] in *.
      subst r. rewrite Hh. by destruct_exn e.
    + intros ui sd Hd ->. rewrite async_step_auth_Some, Hd. cbv zeta.
      destruct (validate_input dev _ st) as [r st']. cbn [fst snd] in *.
      subst r. by destruct_exn e.
Qed.

(** C2 at concrete inputs: a device that refuses the credentials, a host
    that does not answer, a device that accepts them (the confirm step then
    creates the entry under the normalised mDNS name), and a client that
    fails with another exception (the auth step shows "unknown"), and a
    call that is cancelled (the cancellation leaves the user step). *)
Lemma validate_input_error_mapping_witness :
  (validate_input Examples.dev_locked Examples.admin_data (Examples.fresh ∅)).1
  = Raise InvalidAuth
  ∧ (validate_input Examples.dev_down Examples.admin_data (Examples.fresh ∅)).1
    = Raise CannotConnect
  ∧ (async_step_confirm "admin" Examples.dev_open (Some ∅)
       (set_data Examples.admin_data (Examples.fresh ∅))).1
    = Return (CreateEntry "NanoKVM (kvm-8f3a.local.)" Examples.admin_data)
  ∧ (async_step_auth "admin" Examples.dev_broken
       (Some {[CONF_USERNAME := "admin"; CONF_PASSWORD := "secret"]})
       (set_data Examples.host_only (Examples.fresh ∅))).1
    = Return (Form "auth" (Some (auth_schema "admin")) {["base" := "unknown"]} None)
  ∧ (async_step_user "admin" "admin" Examples.dev_cancelled
       (Some Examples.host_only) (Examples.fresh ∅)).1
    = Raise (ClientRaised (BaseExceptionOnly "CancelledError")).
Proof.
  split_and!.
  - apply (validate_input_error_mapping "admin" "admin" Examples.dev_locked
             Examples.admin_data (Examples.fresh ∅)).
    exists "kvm.local", "admin", "admin".
    split_and!; [reflexivity | reflexivity | reflexivity |].
    left. reflexivity.
  - apply (validate_input_error_mapping "admin" "admin" Examples.dev_down
             Examples.admin_data (Examples.fresh ∅)).
    left. exists "kvm.local", "admin", "admin".
    split_and!; [reflexivity | reflexivity | reflexivity |].
    left. reflexivity.
  - destruct (validate_input_error_mapping "admin" "admin" Examples.dev_open
                Examples.admin_data
                (set_data Examples.admin_data (Examples.fresh ∅)))
      as (_ & _ & _ & H & _).
    destruct (H "kvm-8f3a.local.") as (Hc & _ & Hu); [reflexivity |].
    rewrite (Hc ∅); [| reflexivity].
    apply Hu. apply (bool_decide_unpack _). vm_compute. exact I.
  - destruct (validate_input_error_mapping "admin" "admin" Examples.dev_broken
                (dict_or Examples.host_only
                   {[CONF_USERNAME := "admin"; CONF_PASSWORD := "secret"]})
                (set_data Examples.host_only (Examples.fresh ∅)))
      as (_ & _ & _ & _ & _ & _ & _ & H).
    destruct (H (ClientRaised (OtherClientException "ValueError")))
      as (_ & _ & Ha);
      [reflexivity | discriminate | discriminate | reflexivity |].
    rewrite (Ha _ Examples.host_only); reflexivity.
  - destruct (validate_input_error_mapping "admin" "admin" Examples.dev_cancelled
                (dict_or (default_credentials "admin" "admin") Examples.host_only)
                (Examples.fresh ∅))
      as (_ & _ & _ & _ & _ & _ & H & _).
    destruct (H (ClientRaised (BaseExceptionOnly "CancelledError")))
      as (Hu & _); [reflexivity | reflexivity |].
    rewrite (Hu Examples.host_only); reflexivity.
Defined.

(** C2 as first stated, with every other exception shown as "unknown",
    fails on a cancelled call: [validate_input] raises an exception that
    is neither [InvalidAuth] nor [CannotConnect], and the user step raises
    it again instead of showing its form. *)
Lemma unknown_mapping_counterexample :
  (validate_input Examples.dev_cancelled
     (dict_or (default_credentials "admin" "admin") Examples.host_only)
     (Examples.fresh ∅)).1
  = Raise (ClientRaised (BaseExceptionOnly "CancelledError"))
  ∧ ClientRaised (BaseExceptionOnly "CancelledError") ≠ InvalidAuth
  ∧ ClientRaised (BaseExceptionOnly "CancelledError") ≠ CannotConnect
  ∧ (async_step_user "admin" "admin" Examples.dev_cancelled
       (Some Examples.host_only) (Examples.fresh ∅)).1
    = Raise (ClientRaised (BaseExceptionOnly "CancelledError"))
  ∧ (async_step_user "admin" "admin" Examples.dev_cancelled
       (Some Examples.host_only) (Examples.fresh ∅)).1
    ≠ Return (Form "user" (Some user_schema) {["base" := "unknown"]} None).
Proof. split_and!; done. Qed.

(** ** Zeroconf discovery *)

Lemma async_step_user_InvalidAuth (U P : string) (dev : Device)
    (ui : dict) (st : FlowState) :
  (validate_input dev (dict_or (default_credentials U P) ui) st).1
  = Raise InvalidAuth →
  async_step_user U P dev (Some ui) st
  = (Return (Form "auth" (Some (auth_schema U)) ∅ None),
     set_data ui (validate_input dev (dict_or (default_credentials U P) ui) st).2).
Proof.
  intros Hr. rewrite async_step_user_Some. cbv zeta.
  apply validate_input_InvalidAuth in Hr as Hp.
  destruct Hp as (h & _ & _ & Hh & _).
  rewrite default_credentials_host in Hh.
  destruct (validate_input dev _ st) as [r st']. cbn [fst snd] in *.
  subst r. by rewrite Hh.
Qed.

Lemma handoff_lookups (U P h : string) :
  let d := dict_or (default_credentials U P) {[CONF_HOST := h]} in
  d !! CONF_HOST = Some h ∧ d !! CONF_USERNAME = Some U
  ∧ d !! CONF_PASSWORD = Some P.
Proof.
  cbv zeta. rewrite !dict_or_lookup. unfold default_credentials.
  split_and!; by simplify_map_eq.
Qed.

(** C5: when an entry is configured under the normalised (trailing-dot)
    form of the discovered hostname, the zeroconf step aborts
    ("already_configured") before any call is made on the device, and
    returns no entry. *)
Theorem zeroconf_already_configured (U P : string) (dev : Device)
    (info : ZeroconfServiceInfo) (st : FlowState) :
  normalize_mdns (hostname info) ∈ entries st →
  async_step_zeroconf U P dev info st
  = (Raise (AbortFlow "already_configured"),
     set_unique_id (normalize_mdns (hostname info)) st)
  ∧ calls (async_step_zeroconf U P dev info st).2 = calls st
  ∧ entries (async_step_zeroconf U P dev info st).2 = entries st
  ∧ ∀ title d,
      (async_step_zeroconf U P dev info st).1 ≠ Return (CreateEntry title d).
Proof.
  intros Hin. rewrite async_step_zeroconf_unfold. cbv zeta.
  rewrite decide_True by done. by split_and!.
Qed.

(** C5 at a concrete input: "kvm.local" is discovered while an entry with
    the unique id "kvm.local." exists. *)
Lemma zeroconf_already_configured_witness :
  async_step_zeroconf "admin" "admin" Examples.dev_open
    {| hostname := "kvm.local" |} (Examples.fresh {["kvm.local."]})
  = (Raise (AbortFlow "already_configured"),
     set_unique_id "kvm.local." (Examples.fresh {["kvm.local."]}))
  ∧ calls (async_step_zeroconf "admin" "admin" Examples.dev_open
             {| hostname := "kvm.local" |} (Examples.fresh {["kvm.local."]})).2
    = [].
Proof.
  destruct (zeroconf_already_configured "admin" "admin" Examples.dev_open
              {| hostname := "kvm.local" |} (Examples.fresh {["kvm.local."]}))
    as (H1 & H2 & _).
  - apply (bool_decide_unpack _). vm_compute. exact I.
  - split; [exact H1 | exact H2].
Defined.


Lemma validate_input_calls (dev : Device) (d : dict) (st : FlowState)
    (h u p : string) :
  d !! CONF_HOST = Some h → d !! CONF_USERNAME = Some u →
  d !! CONF_PASSWORD = Some p →
  ∃ rest,
    calls (validate_input dev d st).2
    = calls st ++ Authenticate (normalize_host h) u p :: rest
    ∧ (rest = [] ∨ rest = [GetInfo (normalize_host h)]).
Proof.
  intros Hh Hu Hp. rewrite validate_input_unfold, Hh, Hu, Hp. cbv zeta.
  destruct (authenticate_rsp dev _ _ u p) as [e|].
  - exists []. split; [reflexivity | by left].
  - exists [GetInfo (normalize_host h)].
    split; [| by right].
    destruct (get_info_rsp dev _ _) as [e|i];
      cbn [snd calls log_call]; by rewrite <- app_assoc.
Qed.

Lemma async_step_user_calls (U P : string) (dev : Device)
    (ui : dict) (st : FlowState) :
  calls (async_step_user U P dev (Some ui) st).2
  = calls (validate_input dev (dict_or (default_credentials U P) ui) st).2.
Proof.
  rewrite async_step_user_Some. cbv zeta.
  destruct (validate_input dev _ st) as [[m|e] st']; cbn [snd].
  - rewrite async_step_confirm_None. cbn [data set_data].
    by destruct (_ !! CONF_HOST).
  - destruct_exn e; try reflexivity.
    by destruct (ui !! CONF_HOST).
Qed.




(** ** Credentials of the user step *)

(** C10: the user step validates the default username and password
    overridden by the keys of the user input: every key of the input keeps
    its value, so a supplied username or password is the one sent to the
    device, and a default is sent for each of the two that the input
    omits.  The zeroconf step hands the user step an input holding only
    the host, so every call it makes on the device, in its own probe and
    in the user step, carries the default credentials. *)
Theorem user_step_credential_precedence (U P : string) (dev : Device)
    (ui : dict) (st : FlowState) :
  let d := dict_or (default_credentials U P) ui in
  (∀ k, d !! k = match ui !! k with
                 | Some v => Some v
                 | None => default_credentials U P !! k
                 end)
  ∧ d !! CONF_USERNAME = Some (dict_get ui CONF_USERNAME U)
  ∧ d !! CONF_PASSWORD = Some (dict_get ui CONF_PASSWORD P)
  ∧ calls (async_step_user U P dev (Some ui) st).2
    = calls (validate_input dev d st).2
  ∧ (∀ h, ui !! CONF_HOST = Some h →
       ∃ rest,
         calls (async_step_user U P dev (Some ui) st).2
         = calls st
           ++ Authenticate (normalize_host h)
                (dict_get ui CONF_USERNAME U)
                (dict_get ui CONF_PASSWORD P) :: rest)
  ∧ (∀ info c,
       c ∈ calls (async_step_zeroconf U P dev info st).2 →
       c ∈ calls st
       ∨ c = Authenticate (normalize_host (hostname info)) U P
       ∨ c = GetInfo (normalize_host (hostname info))).
Proof.
  cbv zeta.
  assert (dict_or (default_credentials U P) ui !! CONF_USERNAME
          = Some (dict_get ui CONF_USERNAME U)) as Hu.
  { rewrite dict_or_lookup. unfold dict_get.
    destruct (ui !! CONF_USERNAME); [done |].
    unfold default_credentials. by simplify_map_eq. }
  assert (dict_or (default_credentials U P) ui !! CONF_PASSWORD
          = Some (dict_get ui CONF_PASSWORD P)) as Hp.
  { rewrite dict_or_lookup. unfold dict_get.
    destruct (ui !! CONF_PASSWORD); [done |].
    unfold default_credentials. by simplify_map_eq. }
  split_and!.
  - intros k. apply dict_or_lookup.
  - exact Hu.
  - exact Hp.
  - apply async_step_user_calls.
  - intros h Hh. rewrite async_step_user_calls.
    destruct (validate_input_calls dev (dict_or (default_credentials U P) ui) st
                h (dict_get ui CONF_USERNAME U)
                (dict_get ui CONF_PASSWORD P)) as (rest & Hc & _);
      [by rewrite default_credentials_host | done | done |].
    by exists rest.
  - intros info c. rewrite async_step_zeroconf_unfold. cbv zeta.
    destruct (handoff_lookups U P (hostname info)) as (Hh' & Hu' & Hp').
    assert (∀ s : FlowState,
              (∀ c, c ∈ calls s →
                    c ∈ calls st
                    ∨ c = Authenticate (normalize_host (hostname info)) U P
                    ∨ c = GetInfo (normalize_host (hostname info))) →
              c ∈ calls (async_step_user U P dev
                           (Some {[CONF_HOST := hostname info]})
                           (set_data {[CONF_HOST := hostname info]}
                              (set_title_placeholders
                                 {["name" := hostname info]} s))).2 →
              c ∈ calls st
              ∨ c = Authenticate (normalize_host (hostname info)) U P
              ∨ c = GetInfo (normalize_host (hostname info))) as Hhand.
    { intros s Hs. rewrite async_step_user_calls.
      destruct (validate_input_calls dev _
                  (set_data {[CONF_HOST := hostname info]}
                     (set_title_placeholders {["name" := hostname info]} s))
                  _ _ _ Hh' Hu' Hp') as (rest & -> & Hrest).
      cbn [calls set_data set_title_placeholders].
      rewrite elem_of_app, elem_of_cons.
      intros [Hin | [-> | Hin]]; [by apply Hs | by right; left |].
      destruct Hrest as [-> | ->]; [by apply elem_of_nil in Hin |].
      apply list_elem_of_singleton in Hin as ->. by right; right. }
    assert (∀ c', c' ∈ calls st ++ [Authenticate (normalize_host (hostname info)) U P] →
                  c' ∈ calls st
                  ∨ c' = Authenticate (normalize_host (hostname info)) U P
                  ∨ c' = GetInfo (normalize_host (hostname info))) as H1.
    { intros c'. rewrite elem_of_app, list_elem_of_singleton. tauto. }
    assert (∀ c', c' ∈ (calls st ++ [Authenticate (normalize_host (hostname info)) U P])
                         ++ [GetInfo (normalize_host (hostname info))] →
                  c' ∈ calls st
                  ∨ c' = Authenticate (normalize_host (hostname info)) U P
                  ∨ c' = GetInfo (normalize_host (hostname info))) as H2.
    { intros c'. rewrite !elem_of_app, !list_elem_of_singleton. tauto. }
    case_decide; [by left |].
    destruct (authenticate_rsp dev _ _ U P) as [e|].
    + destruct e; cbn [snd]; try apply H1; by apply Hhand.
    + destruct (get_info_rsp dev _ _) as [e|i]; [destruct e |]; cbn [snd];
        try apply H2; by apply Hhand.
Qed.

(** C10 at concrete inputs: a supplied password is the one sent, next to
    the default username; the calls of a zeroconf discovery carry the
    default credentials. *)
Lemma user_step_credential_precedence_witness :
  (∃ rest,
     calls (async_step_user "admin" "admin" Examples.dev_locked
              (Some {[CONF_HOST := "kvm.local"; CONF_PASSWORD := "secret"]})
              (Examples.fresh ∅)).2
     = [] ++ Authenticate "http://kvm.local/api/" "admin" "secret" :: rest)
  ∧ (Authenticate "http://kvm.local/api/" "admin" "admin" ∈ []
     ∨ Authenticate "http://kvm.local/api/" "admin" "admin"
       = Authenticate (normalize_host "kvm.local") "admin" "admin"
     ∨ Authenticate "http://kvm.local/api/" "admin" "admin"
       = GetInfo (normalize_host "kvm.local")).
Proof.
  split.
  - destruct (user_step_credential_precedence "admin" "admin" Examples.dev_locked
                {[CONF_HOST := "kvm.local"; CONF_PASSWORD := "secret"]}
                (Examples.fresh ∅)) as (_ & _ & _ & _ & H & _).
    exact (H "kvm.local" eq_refl).
  - destruct (user_step_credential_precedence "admin" "admin" Examples.dev_locked
                ∅ (Examples.fresh ∅)) as (_ & _ & _ & _ & _ & H).
    apply (H {| hostname := "kvm.local" |}).
    vm_compute. apply list_elem_of_here.
Defined.

(** ** The mouse-jiggler select entity *)

Lemma select_option_fn_unfold (c : Select.Coordinator) (option : string) :
  Select.select_option_fn Select.mouse_jiggler_mode option c =
  let enabled := negb (bool_decide (option = "Disable")) in
  let mode :=
    if decide (option = "Relative Mode") then Select.RELATIVE
    else Select.ABSOLUTE in
  let c' := Select.log_event (Select.SetMouseJigglerState enabled mode) c in
  match Select.set_mouse_jiggler_state_rsp (Select.client c) (Select.events c)
          enabled mode with
  | None => (Return tt, c')
  | Some e => (Raise (ClientRaised e), c')
  end.
Proof.
  cbn [Select.select_option_fn Select.mouse_jiggler_mode].
  unfold Select.set_mouse_jiggler_state, mbind, M_bind, mret, M_ret, raise,
    get, modify.
  cbv zeta.
  by destruct (Select.set_mouse_jiggler_state_rsp _ _ _ _).
Qed.

Lemma async_select_option_unfold (c : Select.Coordinator) (option : string) :
  Select.async_select_option
    {| Select.entity_description := Select.mouse_jiggler_mode |} option c =
  match Select.select_option_fn Select.mouse_jiggler_mode option c with
  | (Return _, c') => (Return tt, Select.log_event Select.RequestRefresh c')
  | (Raise e, c') => (Raise e, c')
  end.
Proof.
  unfold Select.async_select_option, Select.async_request_refresh,
    mbind, M_bind, modify.
  cbn [Select.entity_description].
  by destruct (Select.select_option_fn _ _ _) as [[[]|e] c'].
Qed.

(** C7: selecting an option calls the client's [set_mouse_jiggler_state]
    exactly once, with enabled = false for "Disable", enabled = true and
    RELATIVE for "Relative Mode", enabled = true and ABSOLUTE for
    "Absolute Mode"; when the call returns, the refresh of the coordinator
    is requested next, and when it raises, the exception leaves the
    coroutine.  The displayed option is "Disable" when the jiggler state
    is absent or not enabled, "Relative Mode" when it is enabled in
    RELATIVE mode, and "Absolute Mode" otherwise. *)
Theorem select_option_writes_through (c : Select.Coordinator) :
  let self := {| Select.entity_description := Select.mouse_jiggler_mode |} in
  let sends option enabled mode :=
    let out := Select.async_select_option self option c in
    let rsp :=
      Select.set_mouse_jiggler_state_rsp (Select.client c) (Select.events c)
        enabled mode in
    Select.events out.2
    = Select.events c
      ++ Select.SetMouseJigglerState enabled mode
         :: (if rsp is None then [Select.RequestRefresh] else [])
    ∧ out.1 = (if rsp is Some e then Raise (ClientRaised e) else Return tt)
    ∧ Select.mouse_jiggler_state out.2 = Select.mouse_jiggler_state c in
  let shows state :=
    Select.current_option self
      {| Select.client := Select.client c;
         Select.mouse_jiggler_state := state;
         Select.events := Select.events c |} in
  sends "Disable" false Select.ABSOLUTE
  ∧ sends "Relative Mode" true Select.RELATIVE
  ∧ sends "Absolute Mode" true Select.ABSOLUTE
  ∧ shows None = "Disable"
  ∧ (∀ mode,
       shows (Some {| Select.enabled := false; Select.mode := mode |})
       = "Disable")
  ∧ shows (Some {| Select.enabled := true; Select.mode := Select.RELATIVE |})
    = "Relative Mode"
  ∧ (∀ mode,
       shows (Some {| Select.enabled := true; Select.mode := mode |})
       = if decide (mode = Select.RELATIVE) then "Relative Mode"
         else "Absolute Mode").
Proof.
  cbv zeta.
  split_and!; try done;
    rewrite async_select_option_unfold, select_option_fn_unfold; cbv zeta;
    rewrite ?bool_decide_eq_true_2, ?bool_decide_eq_false_2 by done;
    rewrite ?decide_True, ?decide_False by done; cbn [negb];
    destruct (Select.set_mouse_jiggler_state_rsp _ _ _ _);
    cbn [fst snd Select.events Select.log_event Select.mouse_jiggler_state];
    by rewrite <- ?app_assoc.
Qed.

(** C9: for each of the three options, when the device state becomes the
    (enabled, mode) pair that [select_option_fn] sends for the option,
    [value_fn] gives the option back. *)
Theorem select_round_trip (c c' : Select.Coordinator) (option : string)
    (enabled : bool) (mode : Select.MouseJigglerMode) :
  option ∈ Select.options Select.mouse_jiggler_mode →
  Select.events (Select.select_option_fn Select.mouse_jiggler_mode option c).2
  = Select.events c ++ [Select.SetMouseJigglerState enabled mode] →
  Select.mouse_jiggler_state c'
  = Some {| Select.enabled := enabled; Select.mode := mode |} →
  Select.value_fn Select.mouse_jiggler_mode c' = option.
Proof.
  intros Hopt Hsent Hstate.
  rewrite select_option_fn_unfold in Hsent. cbv zeta in Hsent.
  assert (enabled = negb (bool_decide (option = "Disable"))
          ∧ mode = (if decide (option = "Relative Mode")
                    then Select.RELATIVE else Select.ABSOLUTE)) as [-> ->].
  { destruct (Select.set_mouse_jiggler_state_rsp _ _ _ _);
      cbn [snd Select.events Select.log_event] in Hsent;
      apply app_inv_head in Hsent; by injection Hsent as <- <-. }
  cbn [Select.value_fn Select.mouse_jiggler_mode]. rewrite Hstate.
  cbn [Select.enabled Select.mode Select.options Select.mouse_jiggler_mode] in *.
  apply elem_of_cons in Hopt as [-> | Hopt]; [done |].
  apply elem_of_cons in Hopt as [-> | Hopt]; [done |].
  apply list_elem_of_singleton in Hopt as ->. done.
Qed.

(** C9 at concrete inputs: each option is sent from a coordinator that
    shows "Disable", and read back from the state the device then has. *)
Lemma select_round_trip_witness :
  Select.value_fn Select.mouse_jiggler_mode
    (Examples.coordinator
       (Some {| Select.enabled := true; Select.mode := Select.RELATIVE |}))
  = "Relative Mode"
  ∧ Select.value_fn Select.mouse_jiggler_mode
      (Examples.coordinator
         (Some {| Select.enabled := true; Select.mode := Select.ABSOLUTE |}))
    = "Absolute Mode"
  ∧ Select.value_fn Select.mouse_jiggler_mode
      (Examples.coordinator
         (Some {| Select.enabled := false; Select.mode := Select.ABSOLUTE |}))
    = "Disable".
Proof.
  split_and!.
  - apply (select_round_trip (Examples.coordinator None) _ "Relative Mode"
             true Select.RELATIVE); [| reflexivity | reflexivity].
    apply (bool_decide_unpack _). vm_compute. exact I.
  - apply (select_round_trip (Examples.coordinator None) _ "Absolute Mode"
             true Select.ABSOLUTE); [| reflexivity | reflexivity].
    apply (bool_decide_unpack _). vm_compute. exact I.
  - apply (select_round_trip (Examples.coordinator None) _ "Disable"
             false Select.ABSOLUTE); [| reflexivity | reflexivity].
    apply (bool_decide_unpack _). vm_compute. exact I.
Defined.

Example select_relative_mode_events :
  Select.events
    (Select.async_select_option
       {| Select.entity_description := Select.mouse_jiggler_mode |}
       "Relative Mode" (Examples.coordinator None)).2
  = [Select.SetMouseJigglerState true Select.RELATIVE; Select.RequestRefresh].
Proof. reflexivity. Qed.

Example select_disable_events :
  Select.events
    (Select.async_select_option
       {| Select.entity_description := Select.mouse_jiggler_mode |}
       "Disable" (Examples.coordinator None)).2
  = [Select.SetMouseJigglerState false Select.ABSOLUTE; Select.RequestRefresh].
Proof. reflexivity. Qed.

Example setup_skips_unavailable :
  Select.async_setup_entry (Examples.coordinator None) = [].
Proof. reflexivity. Qed.

(** ** More on the normalisation helpers *)

Lemma append_nil_r (s : string) : s +:+ "" = s.
Proof. induction s as [|a s IH]; [done |]. by rewrite append_cons, IH. Qed.

Lemma append_length (s t : string) :
  String.length (s +:+ t) = String.length s + String.length t.
Proof.
  induction s as [|a s IH]; [done |].
  rewrite append_cons. cbn [String.length]. by rewrite IH.
Qed.

Lemma append_self_inv (s t : string) : s +:+ t = s → t = "".
Proof.
  intros H. apply (f_equal String.length) in H.
  rewrite append_length in H. destruct t; [done |].
  cbn [String.length] in H. lia.
Qed.

Lemma normalize_mdns_endswith (s : string) :
  PyStr.endswith (normalize_mdns s) "." = true.
Proof.
  unfold normalize_mdns.
  destruct (PyStr.endswith s ".") eqn:Hd; cbn [negb]; [done |].
  apply endswith_append.
Qed.

(** X1: mDNS normalisation is idempotent; it leaves a name unchanged
    exactly when the name ends with a dot, and otherwise appends one dot
    and nothing else. *)
Theorem normalize_mdns_fixpoints (s : string) :
  normalize_mdns (normalize_mdns s) = normalize_mdns s
  ∧ (normalize_mdns s = s ↔ PyStr.endswith s "." = true)
  ∧ (PyStr.endswith s "." = false → normalize_mdns s = s +:+ ".")
  ∧ String.length (normalize_mdns s) ≤ String.length s + 1.
Proof.
  assert (PyStr.endswith s "." = true → normalize_mdns s = s) as Hfix.
  { intros H. unfold normalize_mdns. by rewrite H. }
  assert (PyStr.endswith s "." = false → normalize_mdns s = s +:+ ".") as Happ.
  { intros H. unfold normalize_mdns. by rewrite H. }
  split_and!.
  - unfold normalize_mdns at 1.
    by rewrite normalize_mdns_endswith.
  - split; [| done]. intros H.
    destruct (PyStr.endswith s ".") eqn:He; [done |].
    rewrite Happ in H by done. by apply append_self_inv in H.
  - done.
  - destruct (PyStr.endswith s ".") eqn:He.
    + rewrite Hfix by done. lia.
    + rewrite Happ by done. rewrite append_length. cbn. lia.
Qed.

(** X2: host normalisation only adds text around the host: the result is
    the host with "http://" or nothing in front and "/api/", "api/" or
    nothing behind; nothing is added in front exactly when the host has a
    scheme, and at most twelve characters are added in all. *)
Theorem normalize_host_affixes (h : string) :
  ∃ p q,
    normalize_host h = p +:+ h +:+ q
    ∧ (p = "" ∨ p = "http://")
    ∧ (q = "" ∨ q = "api/" ∨ q = "/api/")
    ∧ (p = "" ↔ PyStr.startswith_any h ["http://"; "https://"] = true)
    ∧ String.length (normalize_host h) ≤ String.length h + 12.
Proof.
  unfold normalize_host.
  destruct (PyStr.startswith_any h _) eqn:Hs; cbn [negb].
  - exists "".
    destruct (PyStr.endswith h "/api/"); cbn [negb];
      [exists "" | destruct (PyStr.endswith h "/"); [exists "api/" | exists "/api/"]];
      rewrite ?append_nil, ?append_nil_r, ?append_length; cbn [String.length];
      split_and!; try done; try lia; auto.
  - exists "http://".
    destruct (PyStr.endswith _ "/api/"); cbn [negb];
      [exists "" | destruct (PyStr.endswith _ "/"); [exists "api/" | exists "/api/"]];
      rewrite ?append_nil_r, ?append_assoc, ?append_length; cbn [String.length];
      split_and!; try done; try lia; auto.
Qed.

(** X3: the hosts that normalisation leaves unchanged are exactly the API
    base URLs: those with a scheme in front and "/api/" at the end. *)
Theorem normalize_host_fixpoints (h : string) :
  normalize_host h = h ↔ api_url h.
Proof.
  unfold api_url. split.
  - intros H. rewrite <- H. split;
      [apply normalize_host_scheme | apply normalize_host_api].
  - intros [Hs Ha]. by apply normalize_host_fixed.
Qed.

(** ** More on [validate_input] *)

(** X4: with a key missing from its data, [validate_input] raises
    [KeyError] for the first of host, username and password that is
    missing, in that order, without calling the device and without
    touching the flow. *)
Theorem validate_input_missing_key (dev : Device) (d : dict) (st : FlowState) :
  ¬ complete d →
  ∃ k,
    validate_input dev d st = (Raise (KeyError k), st)
    ∧ d !! k = None
    ∧ (k = CONF_HOST
       ∨ (k = CONF_USERNAME ∧ is_Some (d !! CONF_HOST))
       ∨ (k = CONF_PASSWORD ∧ is_Some (d !! CONF_HOST)
          ∧ is_Some (d !! CONF_USERNAME))).
Proof.
  intros Hinc. rewrite validate_input_unfold. unfold complete in Hinc.
  destruct (d !! CONF_HOST) as [h|] eqn:Hh;
    [| exists CONF_HOST; split_and!; auto].
  destruct (d !! CONF_USERNAME) as [u|] eqn:Hu;
    [| exists CONF_USERNAME; split_and!; eauto].
  destruct (d !! CONF_PASSWORD) as [p|] eqn:Hp;
    [| exists CONF_PASSWORD; split_and!; eauto 6].
  destruct Hinc. eauto.
Qed.

Lemma validate_input_missing_key_witness :
  ∃ k,
    validate_input Examples.dev_open Examples.host_only (Examples.fresh ∅)
    = (Raise (KeyError k), Examples.fresh ∅)
    ∧ Examples.host_only !! k = None
    ∧ (k = CONF_HOST
       ∨ (k = CONF_USERNAME ∧ is_Some (Examples.host_only !! CONF_HOST))
       ∨ (k = CONF_PASSWORD ∧ is_Some (Examples.host_only !! CONF_HOST)
          ∧ is_Some (Examples.host_only !! CONF_USERNAME))).
Proof.
  apply (validate_input_missing_key Examples.dev_open Examples.host_only
           (Examples.fresh ∅)).
  intros (_ & [u Hu] & _). vm_compute in Hu. discriminate Hu.
Defined.

(** X5: with complete data, [validate_input] calls [authenticate] once, at
    the normalised host and with the username and password of the data,
    then [get_info] once at the same URL when and only when [authenticate]
    returned; it makes no other call and leaves the flow's data, unique
    id, title placeholders and the configured entries as they were. *)
Theorem validate_input_protocol (dev : Device) (d : dict) (st : FlowState)
    (h u p : string) :
  d !! CONF_HOST = Some h → d !! CONF_USERNAME = Some u →
  d !! CONF_PASSWORD = Some p →
  let url := normalize_host h in
  let st' := (validate_input dev d st).2 in
  calls st'
  = calls st
    ++ Authenticate url u p
       :: (if authenticate_rsp dev (calls st) url u p is None
           then [GetInfo url] else [])
  ∧ data st' = data st ∧ unique_id st' = unique_id st
  ∧ title_placeholders st' = title_placeholders st
  ∧ entries st' = entries st.
Proof.
  intros Hh Hu Hp. cbv zeta.
  rewrite validate_input_unfold, Hh, Hu, Hp. cbv zeta.
  destruct (authenticate_rsp dev _ _ u p) as [e|]; [done |].
  destruct (get_info_rsp dev _ _) as [e|i];
    cbn [snd calls log_call]; by rewrite <- app_assoc.
Qed.

Lemma validate_input_protocol_witness :
  calls (validate_input Examples.dev_open Examples.admin_data
           (Examples.fresh ∅)).2
  = [Authenticate "http://kvm.local/api/" "admin" "admin";
     GetInfo "http://kvm.local/api/"]
  ∧ calls (validate_input Examples.dev_down Examples.admin_data
             (Examples.fresh ∅)).2
    = [Authenticate "http://kvm.local/api/" "admin" "admin"].
Proof.
  split.
  - apply (validate_input_protocol Examples.dev_open Examples.admin_data
             (Examples.fresh ∅) "kvm.local" "admin" "admin");
      reflexivity.
  - apply (validate_input_protocol Examples.dev_down Examples.admin_data
             (Examples.fresh ∅) "kvm.local" "admin" "admin");
      reflexivity.
Defined.

(** ** More on the steps of the manual flow *)

(** X6: the manual flow does not configure a device twice: when the
    validation of the confirm or auth step succeeds for a device whose
    normalised mDNS name is the unique id of a configured entry, the step
    aborts with "already_configured" instead of creating an entry. *)
Theorem manual_flow_refuses_duplicate (U : string) (dev : Device)
    (ui d : dict) (st : FlowState) (m : string) :
  (validate_input dev d st).1 = Return m →
  m ∈ entries st →
  let aborted :=
    (Raise (AbortFlow "already_configured"),
     set_unique_id m (validate_input dev d st).2) in
  (data st = Some d → async_step_confirm U dev (Some ui) st = aborted)
  ∧ (∀ sd, data st = Some sd → d = dict_or sd ui →
       async_step_auth U dev (Some ui) st = aborted).
Proof.
  intros Hr Hin. cbv zeta.
  pose proof (validate_input_frame dev d st) as (_ & _ & _ & He & _).
  split.
  - intros Hd. rewrite async_step_confirm_Some, Hd. cbv zeta.
    destruct (validate_input dev d st) as [r st']. cbn [fst snd] in *.
    subst r. rewrite add_device_unfold, decide_True; [done | by rewrite He].
  - intros sd Hd ->. rewrite async_step_auth_Some, Hd. cbv zeta.
    destruct (validate_input dev _ st) as [r st']. cbn [fst snd] in *.
    subst r. rewrite add_device_unfold, decide_True; [done | by rewrite He].
Qed.

Lemma manual_flow_refuses_duplicate_witness :
  (async_step_confirm "admin" Examples.dev_open (Some ∅)
     (set_data Examples.admin_data (Examples.fresh {["kvm-8f3a.local."]}))).1
  = Raise (AbortFlow "already_configured").
Proof.
  destruct (manual_flow_refuses_duplicate "admin" Examples.dev_open ∅
              Examples.admin_data
              (set_data Examples.admin_data (Examples.fresh {["kvm-8f3a.local."]}))
              "kvm-8f3a.local.") as [H _].
  - reflexivity.
  - apply (bool_decide_unpack _). vm_compute. exact I.
  - by rewrite H.
Defined.

(** X7: the auth step validates the stored data overridden by the
    submitted credentials; when the device refuses them it shows the auth
    form again with errors["base"] = "invalid_auth", and when the device
    cannot be reached with "cannot_connect"; either way the stored data
    and the unique id are left as they were, so the form can be
    submitted again. *)
Theorem async_step_auth_errors (U : string) (dev : Device)
    (ui sd : dict) (st : FlowState) :
  data st = Some sd →
  let r := (validate_input dev (dict_or sd ui) st).1 in
  let st' := (validate_input dev (dict_or sd ui) st).2 in
  let form key :=
    (Return (Form "auth" (Some (auth_schema U)) {["base" := key]} None), st') in
  (r = Raise InvalidAuth →
     async_step_auth U dev (Some ui) st = form "invalid_auth")
  ∧ (r = Raise CannotConnect →
     async_step_auth U dev (Some ui) st = form "cannot_connect")
  ∧ data st' = Some sd ∧ unique_id st' = unique_id st.
Proof.
  intros Hd. cbv zeta.
  pose proof (validate_input_frame dev (dict_or sd ui) st) as (Hf & Hu & _).
  rewrite async_step_auth_Some, Hd. cbv zeta.
  destruct (validate_input dev _ st) as [r st']. cbn [fst snd] in *.
  split_and!; [by intros -> | by intros -> | congruence | done].
Qed.

Lemma async_step_auth_errors_witness :
  (async_step_auth "admin" Examples.dev_locked
     (Some {[CONF_USERNAME := "admin"; CONF_PASSWORD := "guess"]})
     (set_data Examples.host_only (Examples.fresh ∅))).1
  = Return (Form "auth" (Some (auth_schema "admin"))
              {["base" := "invalid_auth"]} None).
Proof.
  destruct (async_step_auth_errors "admin" Examples.dev_locked
              {[CONF_USERNAME := "admin"; CONF_PASSWORD := "guess"]}
              Examples.host_only
              (set_data Examples.host_only (Examples.fresh ∅)))
    as (H & _); [reflexivity |].
  rewrite H; reflexivity.
Defined.

(** X8: on a flow that stored data naming the host, the confirm step
    shows its form with the host as the name when nothing is submitted;
    on a submission it validates the stored data, whatever was submitted:
    an unreachable device gives the confirm form with
    errors["base"] = "cannot_connect", refused credentials give the auth
    form without errors. *)
Theorem async_step_confirm_outcomes (U : string) (dev : Device)
    (ui d : dict) (st : FlowState) (h : string) :
  data st = Some d → d !! CONF_HOST = Some h →
  let r := (validate_input dev d st).1 in
  let st' := (validate_input dev d st).2 in
  async_step_confirm U dev None st
  = (Return (Form "confirm" None ∅ (Some {["name" := h]})), st)
  ∧ (r = Raise CannotConnect →
     async_step_confirm U dev (Some ui) st
     = (Return (Form "confirm" None {["base" := "cannot_connect"]}
                  (Some {["name" := h]})), st'))
  ∧ (r = Raise InvalidAuth →
     async_step_confirm U dev (Some ui) st
     = (Return (Form "auth" (Some (auth_schema U)) ∅ None), st'))
  ∧ (∀ ui', async_step_confirm U dev (Some ui') st
            = async_step_confirm U dev (Some ui) st).
Proof.
  intros Hd Hh. cbv zeta. split_and!.
  - by rewrite async_step_confirm_None, Hd, Hh.
  - rewrite async_step_confirm_Some, Hd. cbv zeta.
    destruct (validate_input dev d st) as [r st']. cbn [fst snd].
    intros ->. by rewrite Hh.
  - rewrite async_step_confirm_Some, Hd. cbv zeta.
    destruct (validate_input dev d st) as [r st']. cbn [fst snd].
    intros ->. by rewrite Hh.
  - intros ui'. by rewrite !async_step_confirm_Some.
Qed.

Lemma async_step_confirm_outcomes_witness :
  (async_step_confirm "admin" Examples.dev_locked (Some ∅)
     (set_data Examples.admin_data (Examples.fresh ∅))).1
  = Return (Form "auth" (Some (auth_schema "admin")) ∅ None)
  ∧ (async_step_confirm "admin" Examples.dev_down (Some ∅)
       (set_data Examples.admin_data (Examples.fresh ∅))).1
    = Return (Form "confirm" None {["base" := "cannot_connect"]}
                (Some {["name" := "kvm.local"]})).
Proof.
  split.
  - destruct (async_step_confirm_outcomes "admin" Examples.dev_locked ∅
                Examples.admin_data
                (set_data Examples.admin_data (Examples.fresh ∅)) "kvm.local")
      as (_ & _ & H & _); [reflexivity | reflexivity |].
    rewrite H; reflexivity.
  - destruct (async_step_confirm_outcomes "admin" Examples.dev_down ∅
                Examples.admin_data
                (set_data Examples.admin_data (Examples.fresh ∅)) "kvm.local")
      as (_ & H & _); [reflexivity | reflexivity |].
    rewrite H; reflexivity.
Defined.

(** X9: the flow object has no stored data until the user or zeroconf
    step assigns it: a confirm step, or a submitted auth step, on such a
    flow raises [AttributeError] without calling the device, while the
    user step and the unsubmitted auth form do not need the data. *)
Theorem steps_without_data (U P : string) (dev : Device)
    (user_input : option dict) (ui : dict) (st : FlowState) :
  data st = None →
  async_step_confirm U dev user_input st = (Raise (AttributeError "data"), st)
  ∧ async_step_auth U dev (Some ui) st = (Raise (AttributeError "data"), st)
  ∧ async_step_auth U dev None st
    = (Return (Form "auth" (Some (auth_schema U)) ∅ None), st)
  ∧ async_step_user U P dev None st
    = (Return (Form "user" (Some user_schema) ∅ None), st).
Proof.
  intros Hd. split_and!.
  - destruct user_input as [ui'|].
    + by rewrite async_step_confirm_Some, Hd.
    + by rewrite async_step_confirm_None, Hd.
  - by rewrite async_step_auth_Some, Hd.
  - apply async_step_auth_None.
  - apply async_step_user_None.
Qed.

Lemma steps_without_data_witness :
  async_step_confirm "admin" Examples.dev_open (Some ∅) (Examples.fresh ∅)
  = (Raise (AttributeError "data"), Examples.fresh ∅).
Proof.
  apply (steps_without_data "admin" "admin" Examples.dev_open (Some ∅) ∅
           (Examples.fresh ∅)).
  reflexivity.
Defined.

(** X10: a submission of the user step that lacks the host, the empty
    dict included, is answered with the user form and
    errors["base"] = "unknown": the [KeyError] of the validation is caught,
    the device is not called and the flow is left as it was. *)
Theorem async_step_user_missing_host (U P : string) (dev : Device)
    (ui : dict) (st : FlowState) :
  ui !! CONF_HOST = None →
  async_step_user U P dev (Some ui) st
  = (Return (Form "user" (Some user_schema) {["base" := "unknown"]} None), st).
Proof.
  intros Hh. rewrite async_step_user_Some. cbv zeta.
  rewrite validate_input_unfold, default_credentials_host, Hh. done.
Qed.

Lemma async_step_user_missing_host_witness :
  async_step_user "admin" "admin" Examples.dev_open (Some ∅) (Examples.fresh ∅)
  = (Return (Form "user" (Some user_schema) {["base" := "unknown"]} None),
     Examples.fresh ∅).
Proof.
  apply (async_step_user_missing_host "admin" "admin" Examples.dev_open ∅
           (Examples.fresh ∅)).
  reflexivity.
Defined.

(** ** Where entries come from *)

Lemma async_step_user_no_entry (U P : string) (dev : Device)
    (user_input : option dict) (st : FlowState) (title : string) (d : dict) :
  (async_step_user U P dev user_input st).1 ≠ Return (CreateEntry title d).
Proof.
  destruct user_input as [ui|]; [| done].
  rewrite async_step_user_Some. cbv zeta.
  destruct (validate_input dev _ st) as [[m|e] st'].
  - rewrite async_step_confirm_None. cbn [data set_data].
    by destruct (_ !! CONF_HOST).
  - destruct_exn e; try done. by destruct (ui !! CONF_HOST).
Qed.

Lemma async_step_user_unique_id (U P : string) (dev : Device)
    (user_input : option dict) (st : FlowState) :
  unique_id (async_step_user U P dev user_input st).2 = unique_id st.
Proof.
  destruct user_input as [ui|]; [| done].
  rewrite async_step_user_Some. cbv zeta.
  pose proof (validate_input_frame dev (dict_or (default_credentials U P) ui) st)
    as (_ & Hu & _).
  destruct (validate_input dev _ st) as [[m|e] st']; cbn [snd] in Hu.
  - rewrite async_step_confirm_None. cbn [data set_data].
    by destruct (_ !! CONF_HOST).
  - destruct_exn e; try done. by destruct (ui !! CONF_HOST).
Qed.

(** X11: neither the user step nor the zeroconf step creates an entry,
    whatever the device answers: an entry needs a submitted confirm or
    auth step.  The user step also leaves the flow's unique id alone. *)
Theorem entries_need_confirmation (U P : string) (dev : Device) (st : FlowState) :
  (∀ user_input title d,
     (async_step_user U P dev user_input st).1 ≠ Return (CreateEntry title d))
  ∧ (∀ user_input,
       unique_id (async_step_user U P dev user_input st).2 = unique_id st)
  ∧ (∀ info title d,
       (async_step_zeroconf U P dev info st).1 ≠ Return (CreateEntry title d)).
Proof.
  split_and!.
  - intros. apply async_step_user_no_entry.
  - intros. apply async_step_user_unique_id.
  - intros info title d. rewrite async_step_zeroconf_unfold. cbv zeta.
    case_decide; [done |].
    destruct (authenticate_rsp dev _ _ U P) as [e|].
    + destruct e; try done. apply async_step_user_no_entry.
    + destruct (get_info_rsp dev _ _) as [e|i];
        [destruct e; try done |]; apply async_step_user_no_entry.
Qed.

Lemma probe_returns_complete (dev : Device) (d : dict) (st : FlowState)
    (info : DeviceInfo) :
  probe_returns dev d st info → complete d.
Proof.
  intros (h & u & p & Hh & Hu & Hp & _). unfold complete.
  rewrite Hh, Hu, Hp. eauto.
Qed.

Lemma add_device_created (m : string) (d d' : dict) (st : FlowState)
    (title : string) :
  (add_device m d st).1 = Return (CreateEntry title d') →
  title = entry_title m ∧ d' = d ∧ (m ∉ entries st)
  ∧ unique_id (add_device m d st).2 = Some m.
Proof.
  rewrite add_device_unfold. case_decide; [done |].
  cbn [fst snd]. intros [= <- <-]. done.
Qed.

(** X12: an entry created by the confirm or auth step holds data that the
    device has just accepted: the data is complete (host, username and
    password), the exchange with the device returned, the entry is titled
    "NanoKVM (name)" for the normalised mDNS name the device advertised,
    that name is the flow's unique id and was not configured before.  The
    confirm step creates the entry from the stored data, the auth step
    from the stored data overridden by the submission. *)
Theorem created_entry_is_validated (U : string) (dev : Device)
    (ui : dict) (st : FlowState) (title : string) (d : dict) :
  let validated (out : Result FlowResult * FlowState) :=
    ∃ info,
      probe_returns dev d st info ∧ complete d
      ∧ title = entry_title (normalize_mdns (mdns info))
      ∧ (normalize_mdns (mdns info) ∉ entries st)
      ∧ unique_id out.2 = Some (normalize_mdns (mdns info)) in
  ((async_step_confirm U dev (Some ui) st).1 = Return (CreateEntry title d) →
     data st = Some d ∧ validated (async_step_confirm U dev (Some ui) st))
  ∧ ((async_step_auth U dev (Some ui) st).1 = Return (CreateEntry title d) →
     (∃ sd, data st = Some sd ∧ d = dict_or sd ui)
     ∧ validated (async_step_auth U dev (Some ui) st)).
Proof.
  cbv zeta. split.
  - rewrite async_step_confirm_Some.
    destruct (data st) as [sd|] eqn:Hd; [| done]. cbv zeta.
    pose proof (validate_input_frame dev sd st) as (_ & _ & _ & He & _).
    pose proof (validate_input_Return dev sd st) as Hret.
    destruct (validate_input dev sd st) as [[m|e] st']; cbn [fst snd] in *.
    + intros Hc. apply add_device_created in Hc as (-> & -> & Hn & Hu).
      destruct (Hret m) as [(info & Hp & ->) _]; [done |].
      split; [done |]. exists info.
      split_and!; [done | by eapply probe_returns_complete | done | | done].
      by rewrite <- He.
    + destruct_exn e; try by destruct (sd !! CONF_HOST).
  - rewrite async_step_auth_Some.
    destruct (data st) as [sd|] eqn:Hd; [| done]. cbv zeta.
    pose proof (validate_input_frame dev (dict_or sd ui) st)
      as (_ & _ & _ & He & _).
    pose proof (validate_input_Return dev (dict_or sd ui) st) as Hret.
    destruct (validate_input dev (dict_or sd ui) st) as [[m|e] st'];
      cbn [fst snd] in *.
    + intros Hc. apply add_device_created in Hc as (-> & -> & Hn & Hu).
      destruct (Hret m) as [(info & Hp & ->) _]; [done |].
      split; [by exists sd |]. exists info.
      split_and!; [done | by eapply probe_returns_complete | done | | done].
      by rewrite <- He.
    + by destruct_exn e.
Qed.

Lemma created_entry_is_validated_witness :
  data (set_data Examples.admin_data (Examples.fresh ∅)) = Some Examples.admin_data
  ∧ ∃ info,
      probe_returns Examples.dev_open Examples.admin_data
        (set_data Examples.admin_data (Examples.fresh ∅)) info
      ∧ complete Examples.admin_data
      ∧ "NanoKVM (kvm-8f3a.local.)" = entry_title (normalize_mdns (mdns info))
      ∧ (normalize_mdns (mdns info)
         ∉ entries (set_data Examples.admin_data (Examples.fresh ∅)))
      ∧ unique_id
          (async_step_confirm "admin" Examples.dev_open (Some ∅)
             (set_data Examples.admin_data (Examples.fresh ∅))).2
        = Some (normalize_mdns (mdns info)).
Proof.
  apply (created_entry_is_validated "admin" Examples.dev_open ∅
           (set_data Examples.admin_data (Examples.fresh ∅))
           "NanoKVM (kvm-8f3a.local.)" Examples.admin_data).
  reflexivity.
Defined.

(** ** The steps in sequence *)

Lemma async_step_user_success (U P : string) (dev : Device)
    (ui : dict) (st : FlowState) (m : string) :
  (validate_input dev (dict_or (default_credentials U P) ui) st).1 = Return m →
  ∃ h,
    ui !! CONF_HOST = Some h
    ∧ async_step_user U P dev (Some ui) st
      = (Return (Form "confirm" None ∅ (Some {["name" := h]})),
         set_data (dict_or (default_credentials U P) ui)
           (validate_input dev (dict_or (default_credentials U P) ui) st).2).
Proof.
  intros Hr. apply validate_input_Return in Hr as Hp.
  destruct Hp as (info & (h & _ & _ & Hh & _) & _). exists h.
  split; [by rewrite <- default_credentials_host with (U := U) (P := P) |].
  rewrite async_step_user_Some. cbv zeta.
  destruct (validate_input dev _ st) as [r st']. cbn [fst snd] in *. subst r.
  rewrite async_step_confirm_None. cbn [data set_data]. by rewrite Hh.
Qed.

(** X13: the manual flow with default credentials.  When the device
    accepts the submission of the user step merged over the default
    credentials, the step shows the confirm form naming the submitted
    host; when the device accepts the same data again at the submission
    of that form and its normalised mDNS name is not configured yet, the
    confirm step creates the entry "NanoKVM (name)" holding the submitted
    input completed with the default credentials, with the name as the
    flow's unique id. *)
Theorem manual_flow_default_credentials (U P : string) (dev : Device)
    (ui ui' : dict) (st : FlowState) (m0 m : string) :
  let d := dict_or (default_credentials U P) ui in
  let st1 := (async_step_user U P dev (Some ui) st).2 in
  (validate_input dev d st).1 = Return m0 →
  (validate_input dev d st1).1 = Return m →
  m ∉ entries st →
  (∃ h, ui !! CONF_HOST = Some h
        ∧ (async_step_user U P dev (Some ui) st).1
          = Return (Form "confirm" None ∅ (Some {["name" := h]})))
  ∧ (async_step_confirm U dev (Some ui') st1).1
    = Return (CreateEntry (entry_title m) d)
  ∧ unique_id (async_step_confirm U dev (Some ui') st1).2 = Some m.
Proof.
  cbv zeta. intros Hr0.
  destruct (async_step_user_success U P dev ui st m0 Hr0) as (h & Hh & ->).
  cbn [fst snd]. intros Hr Hn.
  pose proof (validate_input_frame dev (dict_or (default_credentials U P) ui) st)
    as (_ & _ & _ & He0 & _).
  set (st1 := set_data _ _) in *.
  pose proof (validate_input_frame dev (dict_or (default_credentials U P) ui) st1)
    as (_ & _ & _ & He & _).
  split; [by exists h |].
  rewrite async_step_confirm_Some. cbn [data st1 set_data]. cbv zeta.
  fold st1.
  destruct (validate_input dev _ st1) as [r st']. cbn [fst snd] in *. subst r.
  rewrite add_device_unfold, decide_False; [done |].
  rewrite He. cbn [entries st1 set_data]. by rewrite He0.
Qed.

Lemma manual_flow_default_credentials_witness :
  (async_step_confirm "admin" Examples.dev_open (Some ∅)
     (async_step_user "admin" "admin" Examples.dev_open
        (Some Examples.host_only) (Examples.fresh ∅)).2).1
  = Return (CreateEntry "NanoKVM (kvm-8f3a.local.)" Examples.admin_data).
Proof.
  destruct (manual_flow_default_credentials "admin" "admin" Examples.dev_open
              Examples.host_only ∅ (Examples.fresh ∅)
              "kvm-8f3a.local." "kvm-8f3a.local.") as (_ & H & _).
  - reflexivity.
  - reflexivity.
  - apply (bool_decide_unpack _). vm_compute. exact I.
  - rewrite H. reflexivity.
Defined.

(** X14: the manual flow with entered credentials.  When the device
    refuses the default credentials at the user step, the step stores the
    submission as it is and shows the auth form; when the device then
    accepts the stored submission overridden by the credentials entered
    on that form, and its normalised mDNS name is not configured yet, the
    auth step creates the entry "NanoKVM (name)" holding exactly that
    merged data: the entered keys win, the keys of the first submission
    are kept, and no default is filled in. *)
Theorem manual_flow_entered_credentials (U P : string) (dev : Device)
    (ui creds : dict) (st : FlowState) (m : string) :
  let st1 := (async_step_user U P dev (Some ui) st).2 in
  let d := dict_or ui creds in
  (validate_input dev (dict_or (default_credentials U P) ui) st).1
  = Raise InvalidAuth →
  (validate_input dev d st1).1 = Return m →
  m ∉ entries st →
  (async_step_user U P dev (Some ui) st).1
  = Return (Form "auth" (Some (auth_schema U)) ∅ None)
  ∧ data st1 = Some ui
  ∧ (async_step_auth U dev (Some creds) st1).1
    = Return (CreateEntry (entry_title m) d)
  ∧ unique_id (async_step_auth U dev (Some creds) st1).2 = Some m
  ∧ ∀ k, d !! k = match creds !! k with
                  | Some v => Some v
                  | None => ui !! k
                  end.
Proof.
  cbv zeta. intros Hr0. rewrite (async_step_user_InvalidAuth U P dev ui st Hr0).
  cbn [fst snd]. intros Hr Hn.
  pose proof (validate_input_frame dev (dict_or (default_credentials U P) ui) st)
    as (_ & _ & _ & He0 & _).
  set (st1 := set_data _ _) in *.
  pose proof (validate_input_frame dev (dict_or ui creds) st1)
    as (_ & _ & _ & He & _).
  split_and!; [done | done | | | intros k; apply dict_or_lookup].
  - rewrite async_step_auth_Some. cbn [data st1 set_data]. cbv zeta. fold st1.
    destruct (validate_input dev _ st1) as [r st']. cbn [fst snd] in *. subst r.
    rewrite add_device_unfold, decide_False; [done |].
    rewrite He. cbn [entries st1 set_data]. by rewrite He0.
  - rewrite async_step_auth_Some. cbn [data st1 set_data]. cbv zeta. fold st1.
    destruct (validate_input dev _ st1) as [r st']. cbn [fst snd] in *. subst r.
    rewrite add_device_unfold. by case_decide.
Qed.

Lemma manual_flow_entered_credentials_witness :
  (async_step_auth "admin" Examples.dev_locked
     (Some {[CONF_USERNAME := "admin"; CONF_PASSWORD := "secret"]})
     (async_step_user "admin" "admin" Examples.dev_locked
        (Some Examples.host_only) (Examples.fresh ∅)).2).1
  = Return (CreateEntry "NanoKVM (kvm-8f3a.local.)"
              {[CONF_HOST := "kvm.local"; CONF_USERNAME := "admin";
                CONF_PASSWORD := "secret"]}).
Proof.
  destruct (manual_flow_entered_credentials "admin" "admin" Examples.dev_locked
              Examples.host_only
              {[CONF_USERNAME := "admin"; CONF_PASSWORD := "secret"]}
              (Examples.fresh ∅) "kvm-8f3a.local.") as (_ & _ & H & _).
  - reflexivity.
  - reflexivity.
  - apply (bool_decide_unpack _). vm_compute. exact I.
  - rewrite H. reflexivity.
Defined.

(** ** More on zeroconf discovery *)

Lemma client_returns_stateless (dev : Device) (log log' : list ClientCall)
    (url u p : string) (info : DeviceInfo) :
  stateless dev →
  client_returns dev log url u p info → client_returns dev log' url u p info.
Proof.
  intros Hs [Ha Hg]. split.
  - by rewrite (proj1 (Hs log' log url u p)).
  - by rewrite (proj2 (Hs _ (log ++ [Authenticate url u p]) url u p)).
Qed.

Lemma validate_input_returns (dev : Device) (d : dict) (st : FlowState)
    (h u p : string) (info : DeviceInfo) :
  d !! CONF_HOST = Some h → d !! CONF_USERNAME = Some u →
  d !! CONF_PASSWORD = Some p →
  client_returns dev (calls st) (normalize_host h) u p info →
  validate_input dev d st
  = (Return (normalize_mdns (mdns info)),
     log_call (GetInfo (normalize_host h))
       (log_call (Authenticate (normalize_host h) u p) st)).
Proof.
  intros Hh Hu Hp [Ha Hg].
  rewrite validate_input_unfold, Hh, Hu, Hp. cbv zeta.
  rewrite Ha. change (calls (log_call ?c ?s)) with (calls s ++ [c]).
  by rewrite Hg.
Qed.

(** X15: discovery of a device that accepts the default credentials.  For
    a hostname that is not configured yet and a device whose answers do
    not change, the zeroconf step ends on the confirm form naming the
    discovered hostname.  The device is asked twice, by the probe and by
    the validation of the user step; the flow stores the hostname with
    the default credentials, and its unique id is the normalised
    discovered hostname. *)
Theorem zeroconf_default_credentials (U P : string) (dev : Device)
    (info : ZeroconfServiceInfo) (st : FlowState) (i : DeviceInfo) :
  normalize_mdns (hostname info) ∉ entries st →
  stateless dev →
  client_returns dev (calls st) (normalize_host (hostname info)) U P i →
  let url := normalize_host (hostname info) in
  let out := async_step_zeroconf U P dev info st in
  out.1 = Return (Form "confirm" None ∅ (Some {["name" := hostname info]}))
  ∧ data out.2
    = Some {[CONF_HOST := hostname info; CONF_USERNAME := U; CONF_PASSWORD := P]}
  ∧ title_placeholders out.2 = Some {["name" := hostname info]}
  ∧ unique_id out.2 = Some (normalize_mdns (hostname info))
  ∧ calls out.2
    = calls st ++ [Authenticate url U P; GetInfo url;
                   Authenticate url U P; GetInfo url].
Proof.
  intros Hnot Hs Hc. cbv zeta.
  rewrite async_step_zeroconf_unfold. cbv zeta.
  rewrite decide_False by done.
  pose proof Hc as [Ha Hg].
  rewrite Ha. change (calls (log_call ?c ?s)) with (calls s ++ [c]).
  change (calls (set_unique_id ?u ?s)) with (calls s). rewrite Hg.
  set (st2 := set_data _ _).
  destruct (handoff_lookups U P (hostname info)) as (Hh & Hu & Hp).
  assert (client_returns dev (calls st2) (normalize_host (hostname info)) U P i)
    as Hc2 by (by apply (client_returns_stateless dev (calls st))).
  pose proof (validate_input_returns dev _ st2 _ _ _ i Hh Hu Hp Hc2) as Hv.
  rewrite async_step_user_Some. cbv zeta. rewrite Hv.
  rewrite async_step_confirm_None. cbn [data set_data]. rewrite Hh.
  cbn [fst snd data set_data title_placeholders unique_id calls log_call st2
       set_title_placeholders set_unique_id].
  split_and!; try done.
  by rewrite <- !app_assoc.
Qed.

Lemma zeroconf_default_credentials_witness :
  (async_step_zeroconf "admin" "admin" Examples.dev_open
     {| hostname := "kvm.local" |} (Examples.fresh ∅)).1
  = Return (Form "confirm" None ∅ (Some {["name" := "kvm.local"]})).
Proof.
  apply (zeroconf_default_credentials "admin" "admin" Examples.dev_open
           {| hostname := "kvm.local" |} (Examples.fresh ∅)
           {| mdns := "kvm-8f3a.local" |}).
  - apply (bool_decide_unpack _). vm_compute. exact I.
  - intros log log' url u p. split; reflexivity.
  - split; reflexivity.
Defined.



(** ** Invariants of the flow *)

Lemma step_unique_id_confirm (U : string) (dev : Device)
    (user_input : option dict) (st : FlowState) :
  unique_id (async_step_confirm U dev user_input st).2 = unique_id st
  ∨ ∃ i, unique_id (async_step_confirm U dev user_input st).2
         = Some (normalize_mdns (mdns i)).
Proof.
  destruct user_input as [ui|].
  - rewrite async_step_confirm_Some.
    destruct (data st) as [d|]; [| by left]. cbv zeta.
    pose proof (validate_input_frame dev d st) as (_ & Hu & _).
    pose proof (validate_input_Return dev d st) as Hret.
    destruct (validate_input dev d st) as [[m|e] st']; cbn [fst snd] in *.
    + right. destruct (Hret m) as [(i & _ & ->) _]; [done |].
      exists i. rewrite add_device_unfold. by case_decide.
    + left. destruct_exn e; destruct (d !! CONF_HOST); done.
  - left. rewrite async_step_confirm_None.
    destruct (data st) as [d|]; [| done]. by destruct (d !! CONF_HOST).
Qed.

Lemma step_unique_id_auth (U : string) (dev : Device)
    (user_input : option dict) (st : FlowState) :
  unique_id (async_step_auth U dev user_input st).2 = unique_id st
  ∨ ∃ i, unique_id (async_step_auth U dev user_input st).2
         = Some (normalize_mdns (mdns i)).
Proof.
  destruct user_input as [ui|]; [| by left].
  rewrite async_step_auth_Some.
  destruct (data st) as [sd|]; [| by left]. cbv zeta.
  pose proof (validate_input_frame dev (dict_or sd ui) st) as (_ & Hu & _).
  pose proof (validate_input_Return dev (dict_or sd ui) st) as Hret.
  destruct (validate_input dev _ st) as [[m|e] st']; cbn [fst snd] in *.
  - right. destruct (Hret m) as [(i & _ & ->) _]; [done |].
    exists i. rewrite add_device_unfold. by case_decide.
  - left. by destruct_exn e.
Qed.

Lemma step_unique_id_zeroconf (U P : string) (dev : Device)
    (info : ZeroconfServiceInfo) (st : FlowState) :
  unique_id (async_step_zeroconf U P dev info st).2
  = Some (normalize_mdns (hostname info)).
Proof.
  rewrite async_step_zeroconf_unfold. cbv zeta.
  case_decide; [done |].
  destruct (authenticate_rsp dev _ _ U P) as [e|].
  - destruct e; try done. by rewrite async_step_user_unique_id.
  - destruct (get_info_rsp dev _ _) as [e|i]; [destruct e; try done |];
      by rewrite async_step_user_unique_id.
Qed.

(** X17: every unique id the flow takes ends with a dot.  The zeroconf
    step takes the normalised discovered hostname, whatever follows; the
    confirm and auth steps take the normalised name the device advertises
    or keep the id they found; the user step keeps it.  So a flow whose
    id is unset or dotted stays so through every step. *)
Theorem unique_id_stays_dotted (U P : string) (dev : Device) (st : FlowState) :
  unique_id_dotted st →
  (∀ user_input, unique_id_dotted (async_step_user U P dev user_input st).2)
  ∧ (∀ user_input, unique_id_dotted (async_step_confirm U dev user_input st).2)
  ∧ (∀ user_input, unique_id_dotted (async_step_auth U dev user_input st).2)
  ∧ (∀ info, unique_id_dotted (async_step_zeroconf U P dev info st).2).
Proof.
  intros Hinv. split_and!.
  - intros ui u. rewrite async_step_user_unique_id. apply Hinv.
  - intros ui u. destruct (step_unique_id_confirm U dev ui st) as [-> | [i ->]];
      [apply Hinv |]. intros [= <-]. apply normalize_mdns_endswith.
  - intros ui u. destruct (step_unique_id_auth U dev ui st) as [-> | [i ->]];
      [apply Hinv |]. intros [= <-]. apply normalize_mdns_endswith.
  - intros info u. rewrite step_unique_id_zeroconf. intros [= <-].
    apply normalize_mdns_endswith.
Qed.

Lemma unique_id_stays_dotted_witness :
  unique_id_dotted
    (async_step_confirm "admin" Examples.dev_open (Some ∅)
       (set_data Examples.admin_data (Examples.fresh ∅))).2
  ∧ unique_id
      (async_step_confirm "admin" Examples.dev_open (Some ∅)
         (set_data Examples.admin_data (Examples.fresh ∅))).2
    = Some "kvm-8f3a.local.".
Proof.
  split; [| reflexivity].
  apply (unique_id_stays_dotted "admin" "admin" Examples.dev_open
           (set_data Examples.admin_data (Examples.fresh ∅))).
  intros u Hu. discriminate Hu.
Defined.

Lemma calls_to_api_log (c : ClientCall) (st : FlowState) :
  calls_to_api st → api_url (call_url c) → calls_to_api (log_call c st).
Proof.
  intros Hinv Hc c'. cbn [calls log_call].
  rewrite elem_of_app, list_elem_of_singleton. intros [Hin | ->]; auto.
Qed.

Lemma api_url_normalize_host (h : string) : api_url (normalize_host h).
Proof. split; [apply normalize_host_scheme | apply normalize_host_api]. Qed.

Lemma calls_to_api_validate_input (dev : Device) (d : dict) (st : FlowState) :
  calls_to_api st → calls_to_api (validate_input dev d st).2.
Proof.
  intros Hinv. rewrite validate_input_unfold.
  destruct (d !! CONF_HOST) as [h|]; [| done].
  destruct (d !! CONF_USERNAME) as [u|]; [| done].
  destruct (d !! CONF_PASSWORD) as [p|]; [| done].
  cbv zeta.
  assert (calls_to_api (log_call (Authenticate (normalize_host h) u p) st))
    as H1 by (apply calls_to_api_log; [done | apply api_url_normalize_host]).
  destruct (authenticate_rsp dev _ _ u p) as [e|]; [done |].
  destruct (get_info_rsp dev _ _) as [e|i]; cbn [snd];
    (apply calls_to_api_log; [done | apply api_url_normalize_host]).
Qed.

Lemma calls_to_api_user (U P : string) (dev : Device)
    (user_input : option dict) (st : FlowState) :
  calls_to_api st → calls_to_api (async_step_user U P dev user_input st).2.
Proof.
  intros Hinv. destruct user_input as [ui|]; [| done].
  intros c. rewrite async_step_user_calls.
  by apply calls_to_api_validate_input.
Qed.

(** X18: every call the flow makes on a device goes to an API base URL,
    with a scheme in front and "/api/" at the end, whatever host the user
    typed or zeroconf discovered: a log of calls with that property keeps
    it through every step. *)
Theorem calls_go_to_api_urls (U P : string) (dev : Device) (st : FlowState) :
  calls_to_api st →
  (∀ user_input, calls_to_api (async_step_user U P dev user_input st).2)
  ∧ (∀ user_input, calls_to_api (async_step_confirm U dev user_input st).2)
  ∧ (∀ user_input, calls_to_api (async_step_auth U dev user_input st).2)
  ∧ (∀ info, calls_to_api (async_step_zeroconf U P dev info st).2).
Proof.
  intros Hinv. split_and!.
  - intros ui. by apply calls_to_api_user.
  - intros [ui|].
    + rewrite async_step_confirm_Some.
      destruct (data st) as [d|]; [| done]. cbv zeta.
      pose proof (calls_to_api_validate_input dev d st Hinv) as Hv.
      destruct (validate_input dev d st) as [[m|e] st']; cbn [snd] in Hv.
      * rewrite add_device_unfold. by case_decide.
      * destruct_exn e; destruct (d !! CONF_HOST); done.
    + rewrite async_step_confirm_None.
      destruct (data st) as [d|]; [| done]. by destruct (d !! CONF_HOST).
  - intros [ui|]; [| done].
    rewrite async_step_auth_Some.
    destruct (data st) as [sd|]; [| done]. cbv zeta.
    pose proof (calls_to_api_validate_input dev (dict_or sd ui) st Hinv) as Hv.
    destruct (validate_input dev _ st) as [[m|e] st']; cbn [snd] in Hv.
    + rewrite add_device_unfold. by case_decide.
    + by destruct_exn e.
  - intros info. rewrite async_step_zeroconf_unfold. cbv zeta.
    set (url := normalize_host (hostname info)).
    set (st1 := set_unique_id _ st).
    assert (calls_to_api (log_call (Authenticate url U P) st1)) as H2
      by (apply calls_to_api_log; [done | apply api_url_normalize_host]).
    assert (calls_to_api
              (log_call (GetInfo url) (log_call (Authenticate url U P) st1)))
      as H3 by (apply calls_to_api_log; [done | apply api_url_normalize_host]).
    case_decide; [done |].
    destruct (authenticate_rsp dev _ _ U P) as [e|].
    + destruct e; try done. by apply calls_to_api_user.
    + destruct (get_info_rsp dev _ _) as [e|i]; [destruct e; try done |];
        by apply calls_to_api_user.
Qed.

Lemma calls_go_to_api_urls_witness :
  calls_to_api
    (async_step_zeroconf "admin" "admin" Examples.dev_locked
       {| hostname := "kvm.local" |} (Examples.fresh ∅)).2.
Proof.
  apply (calls_go_to_api_urls "admin" "admin" Examples.dev_locked
           (Examples.fresh ∅)).
  intros c Hc. apply elem_of_nil in Hc. destruct Hc.
Defined.

(** ** More on the select platform *)

(** X19: setting up the platform looks the coordinator of the entry up in
    [hass.data[DOMAIN]]: a missing domain or entry raises [KeyError] and
    adds nothing; otherwise the mouse-jiggler select is the one entity
    added when the coordinator holds a jiggler state, and no entity is
    added when it holds none. *)
Theorem setup_adds_available_selects (DOMAIN entry_id : string)
    (hass : SelectSetup.Hass) :
  let out := SelectSetup.async_setup_entry DOMAIN entry_id hass in
  match SelectSetup.hass_data hass !! DOMAIN with
  | None => out = (Raise (KeyError DOMAIN), hass)
  | Some by_entry =>
      match by_entry !! entry_id with
      | None => out = (Raise (KeyError entry_id), hass)
      | Some coordinator =>
          out.1 = Return tt
          ∧ SelectSetup.hass_data out.2 = SelectSetup.hass_data hass
          ∧ SelectSetup.added out.2
            = SelectSetup.added hass
              ++ (if Select.mouse_jiggler_state coordinator is Some _
                  then [{| Select.entity_description := Select.mouse_jiggler_mode |}]
                  else [])
      end
  end.
Proof.
  cbv zeta.
  unfold SelectSetup.async_setup_entry, SelectSetup.async_add_entities,
    mbind, M_bind, mret, M_ret, raise, get, modify.
  destruct (SelectSetup.hass_data hass !! DOMAIN) as [by_entry|]; [| done].
  destruct (by_entry !! entry_id) as [c|]; [| done].
  cbn [fst snd SelectSetup.hass_data SelectSetup.added].
  split_and!; [done | done |]. f_equal.
  destruct c as [cl [s|] ev]; reflexivity.
Qed.

(** X20: the option a select shows is always one of its options, whatever
    the coordinator holds. *)
Theorem current_option_is_an_option (coordinator : Select.Coordinator) :
  Forall
    (λ description,
       Select.current_option {| Select.entity_description := description |}
         coordinator
       ∈ Select.options description)
    Select.SELECTS.
Proof.
  unfold Select.SELECTS. apply Forall_cons. split; [| apply Forall_nil_2].
  unfold Select.current_option.
  cbn [Select.entity_description Select.value_fn Select.options
       Select.mouse_jiggler_mode].
  destruct (Select.mouse_jiggler_state coordinator) as [[[] m]|];
    cbn [negb Select.enabled Select.mode].
  - case_decide; [apply list_elem_of_further, list_elem_of_here |].
    do 2 apply list_elem_of_further. apply list_elem_of_here.
  - apply list_elem_of_here.
  - apply list_elem_of_here.
Qed.

(** X21: options are compared exactly.  For every string, the write sent
    disables the jiggler only for "Disable" and asks for RELATIVE only for
    "Relative Mode"; any other string, a misspelt option included, enables
    the jiggler in ABSOLUTE mode, and disabling always names ABSOLUTE: a
    disabled RELATIVE is never sent. *)
Theorem select_option_exact_match (c : Select.Coordinator) (option : string) :
  ∃ enabled mode,
    Select.events (Select.select_option_fn Select.mouse_jiggler_mode option c).2
    = Select.events c ++ [Select.SetMouseJigglerState enabled mode]
    ∧ (enabled = false ↔ option = "Disable")
    ∧ (mode = Select.RELATIVE ↔ option = "Relative Mode")
    ∧ ¬ (enabled = false ∧ mode = Select.RELATIVE).
Proof.
  rewrite select_option_fn_unfold. cbv zeta.
  exists (negb (bool_decide (option = "Disable"))),
    (if decide (option = "Relative Mode") then Select.RELATIVE
     else Select.ABSOLUTE).
  split_and!.
  - by destruct (Select.set_mouse_jiggler_state_rsp _ _ _ _).
  - case_bool_decide; cbn [negb]; split; done.
  - case_decide; split; done.
  - intros [He Hm]. case_bool_decide; [subst option | done].
    by rewrite decide_False in Hm.
Qed.

Example select_misspelt_option :
  Select.events
    (Select.select_option_fn Select.mouse_jiggler_mode "disable"
       (Examples.coordinator None)).2
  = [Select.SetMouseJigglerState true Select.ABSOLUTE].
Proof. reflexivity. Qed.

(** X22: selecting again the option that is shown.  For an enabled
    jiggler the write repeats the state the coordinator holds; for a
    disabled one it sends disabled with ABSOLUTE, whatever mode the
    coordinator holds. *)
Theorem reselect_shown_option (c : Select.Coordinator)
    (state : Select.MouseJigglerState) :
  Select.mouse_jiggler_state c = Some state →
  Select.events
    (Select.select_option_fn Select.mouse_jiggler_mode
       (Select.value_fn Select.mouse_jiggler_mode c) c).2
  = Select.events c
    ++ [Select.SetMouseJigglerState (Select.enabled state)
          (if Select.enabled state then Select.mode state
           else Select.ABSOLUTE)].
Proof.
  intros Hs. rewrite select_option_fn_unfold. cbv zeta.
  cbn [Select.value_fn Select.mouse_jiggler_mode]. rewrite Hs.
  destruct state as [[] []]; cbn [negb Select.enabled Select.mode];
    rewrite ?decide_True, ?decide_False by done;
    rewrite ?bool_decide_eq_true_2, ?bool_decide_eq_false_2 by done;
    rewrite ?decide_True, ?decide_False by done; cbn [negb];
    by destruct (Select.set_mouse_jiggler_state_rsp _ _ _ _).
Qed.

Lemma reselect_shown_option_witness :
  Select.events
    (Select.select_option_fn Select.mouse_jiggler_mode
       (Select.value_fn Select.mouse_jiggler_mode
          (Examples.coordinator
             (Some {| Select.enabled := false; Select.mode := Select.RELATIVE |})))
       (Examples.coordinator
          (Some {| Select.enabled := false; Select.mode := Select.RELATIVE |}))).2
  = [] ++ [Select.SetMouseJigglerState false Select.ABSOLUTE].
Proof.
  apply (reselect_shown_option
           (Examples.coordinator
              (Some {| Select.enabled := false; Select.mode := Select.RELATIVE |}))
           {| Select.enabled := false; Select.mode := Select.RELATIVE |}).
  reflexivity.
Defined.
